(** * ScholarAI frontend: chat session controller and dashboard loader

    A shallow embedding of the request/response logic of the Next.js
    frontend:

    - [src/frontend/src/lib/api.ts]       (modules [Api], [ApiClient], [URI])
    - the chat page, [ChatPageContent]    (modules [Chat], [ChatView])
    - the dashboard page, [ResearchPage]  (module [Dashboard])

    React state is a record, a state setter is a function on that record,
    and an [async] function is split at its [await]: the synchronous
    prefix is one function, the continuation (with the variables its
    closure captured) is stored in the record until the awaited promise
    settles.  Values that come out of [response.json()] have the
    TypeScript type [any]; they are modelled by the untyped [jsval]. *)

From Stdlib Require Import ZArith NArith List String Ascii Bool Lia DecimalString.
From Stdlib Require DecimalPos DecimalZ.
Import ListNotations.
Open Scope Z_scope.

(** ** JavaScript values *)

Module JS.

(** A JavaScript string is a sequence of UTF-16 code units. *)
Definition jsstring : Type := list N.

(** An ASCII literal of the source as a [jsstring]. *)
Definition lit (s : string) : jsstring :=
  map N_of_ascii (list_ascii_of_string s).

Fixpoint str_eqb (a b : jsstring) : bool :=
  match a, b with
  | [], [] => true
  | x :: a', y :: b' => N.eqb x y && str_eqb a' b'
  | _, _ => false
  end.

(** [a.startsWith(p)] *)
Fixpoint startsWith (p a : jsstring) : bool :=
  match p, a with
  | [], _ => true
  | x :: p', y :: a' => N.eqb x y && startsWith p' a'
  | _ :: _, [] => false
  end.

Definition is_empty (s : jsstring) : bool :=
  match s with [] => true | _ :: _ => false end.

(** ECMAScript WhiteSpace and LineTerminator code points, the
    characters [String.prototype.trim] strips. *)
Definition isWhiteSpace (c : N) : bool :=
  (existsb (N.eqb c)
     [9; 10; 11; 12; 13; 32; 160; 5760; 8232; 8233; 8239; 8287; 12288; 65279]
   || ((8192 <=? c) && (c <=? 8202)))%N.

Fixpoint trimStart (s : jsstring) : jsstring :=
  match s with
  | [] => []
  | c :: r => if isWhiteSpace c then trimStart r else s
  end.

Definition trimEnd (s : jsstring) : jsstring := rev (trimStart (rev s)).

Definition trim (s : jsstring) : jsstring := trimEnd (trimStart s).

(** [n.toString()], and [n] spliced into a template literal, for an
    integral number: its decimal digits (what JavaScript prints for
    integers below 1e21). *)
Definition Number_toString (n : Z) : jsstring :=
  lit (NilZero.string_of_int (Z.to_int n)).

(** A value of type [any].  Numbers are the integral ones (every
    fractional number is truthy and differs from every integer, which
    is all the program observes of a number). *)
#[warnings="-register-all"]
Inductive jsval : Type :=
| VUndefined
| VNull
| VBool (b : bool)
| VNum (n : Z)
| VStr (s : jsstring)
| VArr (items : list jsval)
| VObj (fields : list (jsstring * jsval)).

(** ToBoolean *)
Definition truthy (v : jsval) : bool :=
  match v with
  | VUndefined | VNull => false
  | VBool b => b
  | VNum n => negb (n =? 0)
  | VStr s => negb (is_empty s)
  | VArr _ | VObj _ => true
  end.

(** [a || b] *)
Definition or_else (a b : jsval) : jsval := if truthy a then a else b.

Fixpoint lookup (k : jsstring) (fields : list (jsstring * jsval)) : jsval :=
  match fields with
  | [] => VUndefined
  | (k', v) :: rest => if str_eqb k k' then v else lookup k rest
  end.

(** [v.k] for the property names the program reads ([message],
    [sources], [session_id], [sessions], [insights], [id]): none of them
    is defined on a prototype, so the read gives [undefined] on every
    value but an object that has the field.  [None] is the TypeError of
    reading a property of [null] or [undefined]. *)
Definition get (v : jsval) (k : jsstring) : option jsval :=
  match v with
  | VUndefined | VNull => None
  | VObj fields => Some (lookup k fields)
  | _ => Some VUndefined
  end.

(** [v !== n] for a number [n]. *)
Definition strict_ne_num (v : jsval) (n : Z) : bool :=
  match v with
  | VNum m => negb (m =? n)
  | _ => true
  end.

(** What [Date.now()] and [new Date()] give when a piece of code reads
    them. *)
Record Clock : Type := { now : Z; date : Z }.

End JS.
Import JS.

(** ** Effects: state, exceptions, try/catch/finally *)

Module Eff.

Inductive exn : Type :=
| NetworkError   (* fetch() rejected *)
| SyntaxError    (* response.json() rejected *)
| TypeError.     (* property read on null *)

Inductive completion (A : Type) : Type :=
| Normal (a : A)
| Throw (e : exn).
Arguments Normal {A} a.
Arguments Throw {A} e.

(** A computation over state [S]: the state it leaves (state changes
    made before a throw stay made) and how it completed. *)
Definition eff (S A : Type) : Type := S -> S * completion A.

Section Ops.
Context {S : Type}.

Definition ret {A} (a : A) : eff S A := fun s => (s, Normal a).

Definition throw {A} (e : exn) : eff S A := fun s => (s, Throw e).

Definition bind {A B} (c : eff S A) (k : A -> eff S B) : eff S B :=
  fun s =>
    match c s with
    | (s', Normal a) => k a s'
    | (s', Throw e) => (s', Throw e)
    end.

(** A state setter. *)
Definition modify (f : S -> S) : eff S unit := fun s => (f s, Normal tt).

Definition when (b : bool) (c : eff S unit) : eff S unit :=
  if b then c else ret tt.

(** [try { body } catch (e) { handler e } finally { finalizer }] *)
Definition try_catch_finally
    (body : eff S unit) (handler : exn -> eff S unit)
    (finalizer : eff S unit) : eff S unit :=
  fun s =>
    let (s1, r1) :=
      match body s with
      | (s', Normal a) => (s', Normal a)
      | (s', Throw e) => handler e s'
      end in
    match finalizer s1 with
    | (s2, Normal _) => (s2, r1)
    | (s2, Throw e) => (s2, Throw e)
    end.

(** [try { body } catch (e) { handler e }] *)
Definition try_catch (body : eff S unit) (handler : exn -> eff S unit)
  : eff S unit :=
  try_catch_finally body handler (ret tt).

(** Lift an optional value, throwing [e] when it is absent. *)
Definition or_throw {A} (e : exn) (o : option A) : eff S A :=
  match o with Some a => ret a | None => throw e end.

End Ops.

Definition state_of {S A} (r : S * completion A) : S := fst r.

Definition fulfilled {S A} (r : S * completion A) : bool :=
  match snd r with Normal _ => true | Throw _ => false end.

End Eff.
Import Eff.

Declare Scope eff_scope.
Delimit Scope eff_scope with eff.
Notation "x <- c ;; k" := (bind c (fun x => k))
  (at level 61, c at next level, right associativity) : eff_scope.
Notation "c ;; k" := (bind c (fun _ => k))
  (at level 61, right associativity) : eff_scope.

(** ** The network as the frontend sees it *)

Module Net.

Inductive Method : Type := GET | POST | DELETE.

(** A request as the call site builds it; [body] is the value handed to
    [JSON.stringify] ([VUndefined] when there is none). *)
Record Request : Type := {
  method : Method;
  url : jsstring;
  body : jsval
}.

(** A response: its status, and what [response.json()] resolves to
    ([None] when it rejects because the body is not JSON). *)
Record Response : Type := {
  status : Z;
  json : option jsval
}.

(** [response.ok] *)
Definition ok (r : Response) : bool :=
  (200 <=? status r) && (status r <=? 299).

(** How a [fetch] promise settles. *)
Inductive FetchOutcome : Type :=
| Rejected
| Resolved (r : Response).

(** [await fetch(...)] once the promise has settled. *)
Definition await_fetch {S} (o : FetchOutcome) : eff S Response :=
  match o with
  | Rejected => throw NetworkError
  | Resolved r => ret r
  end.

(** [await response.json()] *)
Definition Response_json {S} (r : Response) : eff S jsval :=
  or_throw SyntaxError (json r).

(** [data.k] *)
Definition prop {S} (data : jsval) (k : jsstring) : eff S jsval :=
  or_throw TypeError (get data k).

End Net.
Import Net.

(** ** [src/frontend/src/lib/api.ts] *)

Module Api.

(** [process.env.NEXT_PUBLIC_API_URL || 'http://localhost:8000/api'];
    the variable is [None] when it is not set. *)
Definition API_BASE_URL (NEXT_PUBLIC_API_URL : option jsstring) : jsstring :=
  match NEXT_PUBLIC_API_URL with
  | Some (c :: s) => c :: s
  | _ => lit "http://localhost:8000/api"
  end.

(** axios joins [baseURL] and a relative path as
    [baseURL.replace(/\/?\/$/, '') + '/' + path.replace(/^\/+/, '')]. *)
Definition strip_trailing_slash (b : jsstring) : jsstring :=
  match rev b with
  | 47%N :: 47%N :: r => rev r
  | 47%N :: r => rev r
  | _ => b
  end.

Fixpoint strip_leading_slashes (p : jsstring) : jsstring :=
  match p with
  | 47%N :: r => strip_leading_slashes r
  | _ => p
  end.

Definition combineURLs (baseURL relativeURL : jsstring) : jsstring :=
  strip_trailing_slash baseURL ++ lit "/" ++ strip_leading_slashes relativeURL.

Section Client.
(** The environment the module is loaded in. *)
Variable NEXT_PUBLIC_API_URL : option jsstring.

(** The request [api.<method>(path, data)] sends. *)
Definition api (m : Method) (path : jsstring) (data : jsval) : Request :=
  {| method := m;
     url := combineURLs (API_BASE_URL NEXT_PUBLIC_API_URL) path;
     body := data |}.

Definition chatAPI_sendMessage (message : jsstring) (sessionId : jsval) : Request :=
  api POST (lit "/chat/send/")
    (VObj [(lit "message", VStr message); (lit "session_id", sessionId)]).

Definition chatAPI_getSessions : Request :=
  api GET (lit "/chat/sessions/") VUndefined.

Definition chatAPI_getSession (sessionId : jsstring) : Request :=
  api GET (lit "/chat/sessions/" ++ sessionId ++ lit "/") VUndefined.

Definition chatAPI_deleteSession (sessionId : jsstring) : Request :=
  api DELETE (lit "/chat/sessions/" ++ sessionId ++ lit "/") VUndefined.

Definition researchAPI_search (query : jsstring) (filters : jsval) : Request :=
  api POST (lit "/research/search/")
    (VObj [(lit "query", VStr query); (lit "filters", filters)]).

Definition healthCheck : Request :=
  api GET (lit "/health/") VUndefined.
End Client.

End Api.

(** ** The chat page: [ChatPageContent] *)

Module Chat.

Inductive Role : Type := user | assistant.

(** [interface Message].  [content] and [sources] are filled from the
    response body, of type [any]; an absent [sources] is [VUndefined]. *)
Record Message : Type := {
  id : jsstring;
  role : Role;
  content : jsval;
  timestamp : Z;
  sources : jsval
}.

(** What the continuation of a suspended [sendMessage] call still reads
    from its closure: the [sessionId] of the render it was called in. *)
Record Suspended : Type := { closure_sessionId : jsval }.

(** The component: the four state hooks that [sendMessage],
    [startNewChat] and the URL effect use (the scroll button and the
    refs play no part in them), the [sendMessage] calls suspended at
    [await fetch], and the requests handed to [fetch] so far. *)
Record Page : Type := {
  messages : list Message;
  inputMessage : jsstring;
  isLoading : bool;
  sessionId : jsval;
  suspended : list Suspended;
  network : list Request
}.

(** [useState([])], [useState("")], [useState(false)], [useState(null)] *)
Definition initial : Page :=
  {| messages := []; inputMessage := []; isLoading := false;
     sessionId := VNull; suspended := []; network := [] |}.

Definition setMessages (f : list Message -> list Message) (p : Page) : Page :=
  {| messages := f (messages p); inputMessage := inputMessage p;
     isLoading := isLoading p; sessionId := sessionId p;
     suspended := suspended p; network := network p |}.

Definition setInputMessage (v : jsstring) (p : Page) : Page :=
  {| messages := messages p; inputMessage := v;
     isLoading := isLoading p; sessionId := sessionId p;
     suspended := suspended p; network := network p |}.

Definition setIsLoading (b : bool) (p : Page) : Page :=
  {| messages := messages p; inputMessage := inputMessage p;
     isLoading := b; sessionId := sessionId p;
     suspended := suspended p; network := network p |}.

Definition setSessionId (v : jsval) (p : Page) : Page :=
  {| messages := messages p; inputMessage := inputMessage p;
     isLoading := isLoading p; sessionId := v;
     suspended := suspended p; network := network p |}.

(** [fetch(req)] followed by [await]: the request goes out and the
    caller is suspended with its closure. *)
Definition fetch (req : Request) (k : Suspended) (p : Page) : Page :=
  {| messages := messages p; inputMessage := inputMessage p;
     isLoading := isLoading p; sessionId := sessionId p;
     suspended := suspended p ++ [k]; network := network p ++ [req] |}.

(** The continuation at the head of the queue is taken up again. *)
Definition resume (p : Page) : Page :=
  {| messages := messages p; inputMessage := inputMessage p;
     isLoading := isLoading p; sessionId := sessionId p;
     suspended := tl (suspended p); network := network p |}.

Definition apology : jsstring :=
  lit "I apologize, but I'm experiencing some technical difficulties. Please try again in a moment.".

(** [messageText || inputMessage]; [messageText] is [None] when the
    argument is left out. *)
Definition textToSend (messageText : option jsstring) (p : Page) : jsstring :=
  match messageText with
  | Some (c :: s) => c :: s
  | _ => inputMessage p
  end.

Definition send_request (text : jsstring) (sid : jsval) : Request :=
  {| method := POST;
     url := lit "http://127.0.0.1:8000/api/chat/send/";
     body := VObj [(lit "message", VStr text); (lit "session_id", sid)] |}.

(** [sendMessage], from the call to [await fetch(...)]. *)
Definition sendMessage (messageText : option jsstring) (c : Clock) (p : Page) : Page :=
  let text := textToSend messageText p in
  if is_empty (trim text) || isLoading p then p
  else
    let userMessage :=
      {| id := Number_toString (now c); role := user; content := VStr text;
         timestamp := date c; sources := VUndefined |} in
    let p1 := setMessages (fun prev => prev ++ [userMessage]) p in
    let p2 := setInputMessage [] p1 in
    let p3 := setIsLoading true p2 in
    fetch (send_request text (sessionId p)) {| closure_sessionId := sessionId p |} p3.

Definition fallbackMessage (c : Clock) : Message :=
  {| id := Number_toString (now c); role := assistant; content := VStr apology;
     timestamp := date c; sources := VUndefined |}.

(** [sendMessage], from the settled [fetch] to the end: the [try] body
    after the request, the [catch] and the [finally].  [c] is the clock
    as the [try] body reads it, [c'] as the [catch] block does.  The two
    awaits, of [fetch] and of [response.json()], are taken in one step:
    between them the call changes no state and reads only its closure. *)
Definition sendMessage_continue (k : Suspended) (o : FetchOutcome) (c c' : Clock)
  : eff Page unit :=
  (try_catch_finally
     (response <- await_fetch o ;;
      data <- Response_json response ;;
      message <- prop data (lit "message") ;;
      data_sources <- prop data (lit "sources") ;;
      let assistantMessage :=
        {| id := Number_toString (now c + 1); role := assistant;
           content := message; timestamp := date c;
           sources := or_else data_sources (VArr []) |} in
      modify (setMessages (fun prev => prev ++ [assistantMessage])) ;;
      session_id <- prop data (lit "session_id") ;;
      when (truthy session_id && negb (truthy (closure_sessionId k)))
           (modify (setSessionId session_id)))
     (fun error => modify (setMessages (fun prev => prev ++ [fallbackMessage c'])))
     (modify (setIsLoading false)))%eff.

Definition startNewChat (p : Page) : Page :=
  setSessionId VNull (setMessages (fun _ => []) p).

Section Mounted.
(** [searchParams.get('session_id')]: the query parameter of the page
    URL, [None] for [null]. *)
Variable sessionIdFromUrl : option jsstring.

(** The effect with dependencies [[searchParams, sessionId]]. *)
Definition session_effect (p : Page) : Page :=
  match sessionIdFromUrl with
  | Some s =>
      if negb (is_empty s) && negb (truthy (sessionId p))
      then setSessionId (VStr s) p
      else p
  | None => p
  end.

(** What can happen to a mounted page.  A settling request takes up the
    oldest suspended call. *)
Inductive Event : Type :=
| Change (value : jsstring)                     (* onChange of the textarea *)
| Send (messageText : option jsstring) (c : Clock)   (* a call of sendMessage *)
| Settle (o : FetchOutcome) (c c' : Clock)      (* the awaited fetch settles *)
| NewChat.                                      (* the New Chat button *)

Definition handle (p : Page) (ev : Event) : Page :=
  match ev with
  | Change value => setInputMessage value p
  | Send messageText c => sendMessage messageText c p
  | Settle o c c' =>
      match suspended p with
      | [] => p
      | k :: _ => state_of (sendMessage_continue k o c c' (resume p))
      end
  | NewChat => startNewChat p
  end.

(** One event, then the render it causes and the effects of that
    render.  The effect only reads [sessionId] and the URL, and does
    nothing when run a second time, so running it after every event
    is the same as running it when a dependency changed. *)
Definition step (p : Page) (ev : Event) : Page :=
  session_effect (handle p ev).

Definition mount : Page := session_effect initial.

Definition run (p : Page) (evs : list Event) : Page := fold_left step evs p.

(** The events of [sendMessage] calls alone: typing, sending and
    the settling of a request. *)
Definition is_send_event (ev : Event) : bool :=
  match ev with NewChat => false | _ => true end.
End Mounted.

End Chat.

(** ** The dashboard page: [ResearchPage] *)

Module Dashboard.

(** Which [async] function is suspended at its [await], and the
    argument its continuation still reads. *)
Inductive Suspended : Type :=
| AwaitDashboard                  (* fetchDashboardData at Promise.all *)
| AwaitDelete (sessionId : Z).    (* deleteSession at fetch *)

(** The component: the state hooks that the loader and [deleteSession]
    use ([isLoaded] and [activeFilter] only drive the display).  The
    three data slices hold whatever the backend sent; [error] is [None]
    for [null]; [crashed] records that a queued state updater threw when
    React ran it, which unmounts the page. *)
Record Page : Type := {
  stats : jsval;
  recentSessions : jsval;
  insights : jsval;
  loading : bool;
  error : option jsstring;
  crashed : bool;
  suspended : list Suspended;
  network : list Request
}.

Definition default_stats : jsval :=
  VObj [(lit "research_sessions", VNum 0); (lit "messages_exchanged", VNum 0);
        (lit "sources_cited", VNum 0); (lit "research_hours", VNum 0)].

Definition initial : Page :=
  {| stats := default_stats; recentSessions := VArr []; insights := VArr [];
     loading := true; error := None; crashed := false;
     suspended := []; network := [] |}.

Definition setStats (v : jsval) (p : Page) : Page :=
  {| stats := v; recentSessions := recentSessions p; insights := insights p;
     loading := loading p; error := error p; crashed := crashed p;
     suspended := suspended p; network := network p |}.

Definition setRecentSessions (v : jsval) (p : Page) : Page :=
  {| stats := stats p; recentSessions := v; insights := insights p;
     loading := loading p; error := error p; crashed := crashed p;
     suspended := suspended p; network := network p |}.

Definition setInsights (v : jsval) (p : Page) : Page :=
  {| stats := stats p; recentSessions := recentSessions p; insights := v;
     loading := loading p; error := error p; crashed := crashed p;
     suspended := suspended p; network := network p |}.

Definition setLoading (b : bool) (p : Page) : Page :=
  {| stats := stats p; recentSessions := recentSessions p; insights := insights p;
     loading := b; error := error p; crashed := crashed p;
     suspended := suspended p; network := network p |}.

Definition setError (e : option jsstring) (p : Page) : Page :=
  {| stats := stats p; recentSessions := recentSessions p; insights := insights p;
     loading := loading p; error := e; crashed := crashed p;
     suspended := suspended p; network := network p |}.

Definition crash (p : Page) : Page :=
  {| stats := stats p; recentSessions := recentSessions p; insights := insights p;
     loading := loading p; error := error p; crashed := true;
     suspended := suspended p; network := network p |}.

(** [setRecentSessions(prev => f(prev))] with an updater that may
    throw. *)
Definition updateRecentSessions (f : jsval -> option jsval) (p : Page) : Page :=
  match f (recentSessions p) with
  | Some v => setRecentSessions v p
  | None => crash p
  end.

(** [fetch(req)]: the request goes out. *)
Definition fetch (req : Request) (p : Page) : Page :=
  {| stats := stats p; recentSessions := recentSessions p; insights := insights p;
     loading := loading p; error := error p; crashed := crashed p;
     suspended := suspended p; network := network p ++ [req] |}.

(** [await]: the caller is suspended. *)
Definition suspend (k : Suspended) (p : Page) : Page :=
  {| stats := stats p; recentSessions := recentSessions p; insights := insights p;
     loading := loading p; error := error p; crashed := crashed p;
     suspended := suspended p ++ [k]; network := network p |}.

Definition get_request (u : jsstring) : Request :=
  {| method := GET; url := u; body := VUndefined |}.

Definition stats_request : Request :=
  get_request (lit "http://127.0.0.1:8000/api/chat/dashboard/stats/").
Definition sessions_request : Request :=
  get_request (lit "http://127.0.0.1:8000/api/chat/dashboard/sessions/").
Definition insights_request : Request :=
  get_request (lit "http://127.0.0.1:8000/api/chat/dashboard/insights/").

Definition delete_request (sessionId : Z) : Request :=
  {| method := DELETE;
     url := lit "http://127.0.0.1:8000/api/chat/dashboard/sessions/"
            ++ Number_toString sessionId ++ lit "/delete/";
     body := VUndefined |}.

Definition load_failed : jsstring :=
  lit "Failed to load dashboard data. Please try again.".
Definition delete_failed : jsstring :=
  lit "Failed to delete session. Please try again.".

(** [fetchDashboardData], from the call to [await Promise.all([...])]. *)
Definition fetchDashboardData (p : Page) : Page :=
  let p1 := setLoading true p in
  let p2 := setError None p1 in
  let p3 := fetch insights_request (fetch sessions_request (fetch stats_request p2)) in
  suspend AwaitDashboard p3.

(** [fetchDashboardData], from the settled requests to the end.
    [Promise.all] rejects as soon as one of the three does. *)
Definition fetchDashboardData_continue (o1 o2 o3 : FetchOutcome) : eff Page unit :=
  (try_catch_finally
     (statsResponse <- await_fetch o1 ;;
      sessionsResponse <- await_fetch o2 ;;
      insightsResponse <- await_fetch o3 ;;
      when (ok statsResponse)
        (statsData <- Response_json statsResponse ;;
         modify (setStats statsData)) ;;
      when (ok sessionsResponse)
        (sessionsData <- Response_json sessionsResponse ;;
         sessions <- prop sessionsData (lit "sessions") ;;
         modify (setRecentSessions (or_else sessions (VArr [])))) ;;
      when (ok insightsResponse)
        (insightsData <- Response_json insightsResponse ;;
         data_insights <- prop insightsData (lit "insights") ;;
         modify (setInsights (or_else data_insights (VArr [])))))
     (fun err => modify (setError (Some load_failed)))
     (modify (setLoading false)))%eff.

(** [l.filter(keep)] with a callback that may throw. *)
Fixpoint Array_filter (keep : jsval -> option bool) (l : list jsval)
  : option (list jsval) :=
  match l with
  | [] => Some []
  | x :: r =>
      match keep x with
      | None => None
      | Some b =>
          match Array_filter keep r with
          | None => None
          | Some r' => Some (if b then x :: r' else r')
          end
      end
  end.

(** [session => session.id !== sessionId] *)
Definition other_session (sessionId : Z) (session : jsval) : option bool :=
  match get session (lit "id") with
  | Some i => Some (strict_ne_num i sessionId)
  | None => None
  end.

(** [prev => prev.filter(session => session.id !== sessionId)];
    [prev.filter] is not a function unless [prev] is an array. *)
Definition without_session (sessionId : Z) (prev : jsval) : option jsval :=
  match prev with
  | VArr l => option_map VArr (Array_filter (other_session sessionId) l)
  | _ => None
  end.

(** [deleteSession], from the call to [await fetch(...)]; [confirmed]
    is what the [confirm] dialog returned. *)
Definition deleteSession (confirmed : bool) (sessionId : Z) (p : Page) : Page :=
  if negb confirmed then p
  else suspend (AwaitDelete sessionId) (fetch (delete_request sessionId) p).

(** [deleteSession], from the settled request to the end. *)
Definition deleteSession_continue (sessionId : Z) (o : FetchOutcome) : eff Page unit :=
  (try_catch
     (response <- await_fetch o ;;
      if ok response then
        modify (updateRecentSessions (without_session sessionId)) ;;
        modify fetchDashboardData
      else
        modify (setError (Some delete_failed)))
     (fun err => modify (setError (Some delete_failed))))%eff.

(** The continuation [k] is taken off the queue: the first occurrence
    of it goes. *)
Definition Suspended_eqb (a b : Suspended) : bool :=
  match a, b with
  | AwaitDashboard, AwaitDashboard => true
  | AwaitDelete x, AwaitDelete y => x =? y
  | _, _ => false
  end.

Fixpoint remove_first (k : Suspended) (l : list Suspended) : list Suspended :=
  match l with
  | [] => []
  | x :: r => if Suspended_eqb k x then r else x :: remove_first k r
  end.

Definition resume (k : Suspended) (p : Page) : Page :=
  {| stats := stats p; recentSessions := recentSessions p; insights := insights p;
     loading := loading p; error := error p; crashed := crashed p;
     suspended := remove_first k (suspended p); network := network p |}.

(** What can happen to a mounted dashboard. *)
Inductive Event : Type :=
| Retry                                        (* the Try Again button *)
| Delete (confirmed : bool) (sessionId : Z)    (* a delete button and its dialog *)
| LoadSettled (o1 o2 o3 : FetchOutcome)        (* Promise.all settles *)
| DeleteSettled (sessionId : Z) (o : FetchOutcome).

Definition step (p : Page) (ev : Event) : Page :=
  match ev with
  | Retry => fetchDashboardData p
  | Delete confirmed sessionId => deleteSession confirmed sessionId p
  | LoadSettled o1 o2 o3 =>
      if existsb (Suspended_eqb AwaitDashboard) (suspended p)
      then state_of (fetchDashboardData_continue o1 o2 o3 (resume AwaitDashboard p))
      else p
  | DeleteSettled sessionId o =>
      if existsb (Suspended_eqb (AwaitDelete sessionId)) (suspended p)
      then state_of (deleteSession_continue sessionId o (resume (AwaitDelete sessionId) p))
      else p
  end.

(** [useEffect(() => { setIsLoaded(true); fetchDashboardData() }, [])] *)
Definition mount : Page := fetchDashboardData initial.

Definition run (p : Page) (evs : list Event) : Page := fold_left step evs p.

End Dashboard.

(** ** What the chat page derives from its state, and its key handler *)

Module ChatView.

(** [disabled={!inputMessage.trim() || isLoading}] of the send button. *)
Definition sendButton_disabled (p : Chat.Page) : bool :=
  is_empty (trim (Chat.inputMessage p)) || Chat.isLoading p.

(** [messages.length === 0 ? <WelcomeScreen/> : ...] *)
Definition showsWelcome (p : Chat.Page) : bool :=
  match Chat.messages p with [] => true | _ :: _ => false end.

(** The part of a [React.KeyboardEvent] the handler reads. *)
Record KeyboardEvent : Type := { key : jsstring; shiftKey : bool }.

(** [handleKeyDown]: whether [e.preventDefault()] was called, and the
    page after the synchronous part of the [sendMessage()] it starts. *)
Definition handleKeyDown (e : KeyboardEvent) (c : Clock) (p : Chat.Page)
  : bool * Chat.Page :=
  if str_eqb (key e) (lit "Enter") && negb (shiftKey e)
  then (true, Chat.sendMessage None c p)
  else (false, p).

(** [onSuggestionClick={(suggestion) => sendMessage(suggestion)}] *)
Definition onSuggestionClick (suggestion : jsstring) (c : Clock) (p : Chat.Page)
  : Chat.Page :=
  Chat.sendMessage (Some suggestion) c p.

End ChatView.

(** ** [encodeURIComponent] *)

Module URI.

(** The characters [encodeURIComponent] leaves alone: letters, digits
    and [- _ . ! ~ * ' ( )]. *)
Definition unreserved (c : N) : bool :=
  (((65 <=? c) && (c <=? 90)) || ((97 <=? c) && (c <=? 122))
   || ((48 <=? c) && (c <=? 57))
   || existsb (N.eqb c) [45; 95; 46; 33; 126; 42; 39; 40; 41])%N.

(** An uppercase hexadecimal digit. *)
Definition hex_digit (n : N) : N :=
  (if n <? 10 then 48 + n else 55 + n)%N.

(** [%XX] for one octet. *)
Definition percent (octet : N) : jsstring :=
  [37%N; hex_digit (octet / 16); hex_digit (octet mod 16)].

(** The UTF-8 octets of a code point. *)
Definition utf8 (cp : N) : list N :=
  (if cp <? 128 then [cp]
   else if cp <? 2048 then [192 + cp / 64; 128 + cp mod 64]
   else if cp <? 65536 then
     [224 + cp / 4096; 128 + (cp / 64) mod 64; 128 + cp mod 64]
   else
     [240 + cp / 262144; 128 + (cp / 4096) mod 64;
      128 + (cp / 64) mod 64; 128 + cp mod 64])%N.

Definition is_high_surrogate (c : N) : bool := ((55296 <=? c) && (c <=? 56319))%N.
Definition is_low_surrogate (c : N) : bool := ((56320 <=? c) && (c <=? 57343))%N.

Definition escape (cp : N) : jsstring := List.concat (map percent (utf8 cp)).

(** [encodeURIComponent(s)]; [None] is the URIError thrown for a
    surrogate code unit without its partner. *)
Fixpoint encodeURIComponent (s : jsstring) : option jsstring :=
  match s with
  | [] => Some []
  | c :: r =>
      if unreserved c then option_map (cons c) (encodeURIComponent r)
      else if is_low_surrogate c then None
      else if is_high_surrogate c then
        match r with
        | d :: r' =>
            if is_low_surrogate d
            then option_map
                   (app (escape (65536 + (c - 55296) * 1024 + (d - 56320))%N))
                   (encodeURIComponent r')
            else None
        | [] => None
        end
      else option_map (app (escape c)) (encodeURIComponent r)
  end.

End URI.

(** ** [lib/api.ts]: the calls that go through axios *)

Module ApiClient.

(** How axios settles a request: no response at all, or a response with
    its status and the [data] axios made of the body. *)
Inductive Settled : Type :=
| NoResponse
| Answered (status : Z) (data : jsval).

(** How an [async] function of the module settles.  [AxiosError] is
    the rejection axios produced, handed on as it is. *)
Inductive Outcome : Type :=
| Fulfilled (data : jsval)
| AxiosError
| Error (message : jsstring).

(** axios' default [validateStatus]: [status >= 200 && status < 300]. *)
Definition validateStatus (status : Z) : bool :=
  (200 <=? status) && (status <? 300).

(** [const response = await api.<method>(...); return response.data] *)
Definition return_data (s : Settled) : Outcome :=
  match s with
  | NoResponse => AxiosError
  | Answered status data =>
      if validateStatus status then Fulfilled data else AxiosError
  end.

(** [healthCheck]: the same inside [try], with
    [catch (error) { throw new Error('Backend is not available') }]. *)
Definition healthCheck_settle (s : Settled) : Outcome :=
  match return_data s with
  | Fulfilled data => Fulfilled data
  | _ => Error (lit "Backend is not available")
  end.

(** [researchAPI.getSources]: the request it sends; [None] when
    [encodeURIComponent] throws and no request is made. *)
Definition researchAPI_getSources (NEXT_PUBLIC_API_URL : option jsstring)
    (query : jsstring) : option Request :=
  match URI.encodeURIComponent query with
  | Some q =>
      Some (Api.api NEXT_PUBLIC_API_URL GET
              (lit "/research/sources/?q=" ++ q) VUndefined)
  | None => None
  end.

End ApiClient.

(** ** Vocabulary of the statements *)

Section ChatInvariant.
Import Chat.
Variable sessionIdFromUrl : option jsstring.

(** The URL carries a usable session id. *)
Definition url_has_id : bool :=
  match sessionIdFromUrl with
  | Some s => negb (is_empty s)
  | None => false
  end.

(** What holds of every page reached from [mount]:
    at most one request is outstanding, and then the flag is up;
    the effect has nothing left to do; and a suspended call whose
    closure saw no session id implies that none is held now. *)
Record Inv (p : Page) : Prop := {
  inv_one : (List.length (suspended p) <= 1)%nat;
  inv_flag : suspended p <> [] -> isLoading p = true;
  inv_idle : isLoading p = true -> suspended p <> [];
  inv_url : url_has_id = true -> truthy (sessionId p) = true;
  inv_closure : forall k, In k (suspended p) ->
                truthy (sessionId p) = true ->
                truthy (closure_sessionId k) = true
}.

End ChatInvariant.

(** A response the dashboard loader can apply: when it is 2xx, its body
    is JSON (and, for the two lists, not [null], so that the field can be
    read). *)
Definition usable_stats (r : Response) : Prop :=
  ok r = true -> exists d, json r = Some d.

Definition usable_list (k : jsstring) (r : Response) : Prop :=
  ok r = true -> exists d v, json r = Some d /\ get d k = Some v.

(** The session [s] carries the id [sessionId]. *)
Definition has_id (sessionId : Z) (s : jsval) : bool :=
  match get s (lit "id") with
  | Some (VNum m) => m =? sessionId
  | _ => false
  end.

(** A displayed list as [ResearchSession[]] promises it, as far as
    [deleteSession] looks: an array without [null] entries. *)
Definition session_list (l : list jsval) : Prop :=
  Forall (fun s => get s (lit "id") <> None) l.

(** The scenarios of the specification. *)
Module Scenario.

Definition t0 : Clock := {| now := 1700000000000; date := 1700000000000 |}.
Definition t1 : Clock := {| now := 1700000000750; date := 1700000000750 |}.
Definition t2 : Clock := {| now := 1700000060000; date := 1700000060000 |}.
Definition t3 : Clock := {| now := 1700000061200; date := 1700000061200 |}.

Definition hello : jsstring := lit "hello".

Definition reply (text : string) (session_id : string) : jsval :=
  VObj [(lit "message", VStr (lit text)); (lit "session_id", VStr (lit session_id))].

Definition responded (st : Z) (data : jsval) : FetchOutcome :=
  Resolved {| status := st; json := Some data |}.

(** A Django error response: status 500 and a JSON body that describes
    the error. *)
Definition server_error : FetchOutcome :=
  responded 500 (VObj [(lit "error", VStr (lit "Internal server error"))]).

(** The first exchange: "hello", answered with session id "abc". *)
Definition first_exchange : list Chat.Event :=
  [Chat.Send (Some hello) t0; Chat.Settle (responded 200 (reply "hi there" "abc")) t1 t1].

(** A second exchange, answered with a different session id. *)
Definition second_exchange : list Chat.Event :=
  [Chat.Change (lit "and then?"); Chat.Send None t2;
   Chat.Settle (responded 200 (reply "more" "xyz")) t3 t3].

(** What a message shows: who said it, what, and with which sources. *)
Definition shown (m : Chat.Message) : Chat.Role * jsval * jsval :=
  (Chat.role m, Chat.content m, Chat.sources m).

Definition session (i : Z) (title : string) : jsval :=
  VObj [(lit "id", VNum i); (lit "title", VStr (lit title));
        (lit "messages", VNum 2); (lit "status", VStr (lit "active"))].

Definition three_sessions : list jsval :=
  [session 41 "Graph neural networks"; session 42 "Quantum error correction";
   session 43 "Perovskite solar cells"].

(** A dashboard that shows three sessions and is at rest. *)
Definition dashboard : Dashboard.Page :=
  {| Dashboard.stats := Dashboard.default_stats;
     Dashboard.recentSessions := VArr three_sessions;
     Dashboard.insights := VArr [];
     Dashboard.loading := false; Dashboard.error := None;
     Dashboard.crashed := false;
     Dashboard.suspended := []; Dashboard.network := [] |}.

Definition new_stats : jsval :=
  VObj [(lit "research_sessions", VNum 3); (lit "messages_exchanged", VNum 18);
        (lit "sources_cited", VNum 7); (lit "research_hours", VNum 2)].

Definition new_insights : jsval :=
  VArr [VObj [(lit "title", VStr (lit "Research Focus"));
              (lit "description", VStr (lit "Mostly physics"));
              (lit "action", VStr (lit "Explore"))]].

Definition stats_ok : Response := {| status := 200; json := Some new_stats |}.
Definition sessions_down : Response := {| status := 503; json := None |}.
Definition insights_ok : Response :=
  {| status := 200; json := Some (VObj [(lit "insights", new_insights)]) |}.
Definition no_content : Response := {| status := 204; json := None |}.
Definition not_found : Response := {| status := 404; json := None |}.

(** The environment of a deployment that sets the variable. *)
Definition deployed : option jsstring := Some (lit "https://api.scholar.example/api").

End Scenario.

(** The roles of a conversation of [n] completed exchanges, with one
    more user message when a request is [pending]. *)
Definition turns (n : nat) (pending : bool) : list Chat.Role :=
  List.concat (repeat [Chat.user; Chat.assistant] n)
  ++ (if pending then [Chat.user] else []).

(** The [session_id] field of the body of a request. *)
Definition session_id_sent (r : Request) : option jsval :=
  get (body r) (lit "session_id").

(** A string of UTF-16 code units. *)
Definition code_units (s : jsstring) : Prop :=
  Forall (fun c => (c < 65536)%N) s.

(** A character that cannot end or split a query parameter: an
    unreserved one, or the percent sign of an escape. *)
Definition query_safe (c : N) : bool := URI.unreserved c || N.eqb c 37.

(** Whether the loader can read the body of a 2xx response: it is JSON,
    and for the two lists the field can be read off it. *)
Definition readable_stats (r : Response) : bool :=
  match json r with Some _ => true | None => false end.

Definition readable_list (k : jsstring) (r : Response) : bool :=
  match json r with
  | Some d => match get d k with Some _ => true | None => false end
  | None => false
  end.

(** A response that does not make the loader throw. *)
Definition passes (readable : Response -> bool) (r : Response) : bool :=
  negb (ok r) || readable r.

(** A page the chat can be in: what some events make of the mounted
    page. *)
Definition reachable (sessionIdFromUrl : option jsstring) (p : Chat.Page) : Prop :=
  exists evs, p = Chat.run sessionIdFromUrl (Chat.mount sessionIdFromUrl) evs.

(** [data.k], where reading it does not throw. *)
Definition field (data : jsval) (k : string) : jsval :=
  match get data (lit k) with Some v => v | None => VUndefined end.

(** A settled request that gives [sendMessage] nothing to build a reply
    from: [fetch] rejected, the body is not JSON, or it is [null]. *)
Definition unanswered (o : FetchOutcome) : bool :=
  match o with
  | Rejected => true
  | Resolved r =>
      match json r with
      | None | Some VNull | Some VUndefined => true
      | Some _ => false
      end
  end.

(** The user message [sendMessage] builds. *)
Definition userMessage (text : jsstring) (c : Clock) : Chat.Message :=
  {| Chat.id := Number_toString (now c); Chat.role := Chat.user;
     Chat.content := VStr text; Chat.timestamp := date c;
     Chat.sources := VUndefined |}.

(** A load that goes through: the three requests resolve, and no 2xx
    response has a body the loader cannot read. *)
Definition load_succeeds (o1 o2 o3 : FetchOutcome) : bool :=
  match o1, o2, o3 with
  | Resolved r1, Resolved r2, Resolved r3 =>
      passes readable_stats r1
      && passes (readable_list (lit "sessions")) r2
      && passes (readable_list (lit "insights")) r3
  | _, _, _ => false
  end.

(** The body of a response if there is one, [old] otherwise. *)
Definition field_or (body : option jsval) (old : jsval) : jsval :=
  match body with Some d => d | None => old end.

(** Whether a load gets as far as setting the sessions slice: the three
    requests resolve, the stats response does not make the loader throw,
    and the sessions response is 2xx with a body the loader can read. *)
Definition sessions_applied (o1 o2 o3 : FetchOutcome) : bool :=
  match o1, o2, o3 with
  | Resolved r1, Resolved r2, Resolved _ =>
      passes readable_stats r1 && ok r2 && readable_list (lit "sessions") r2
  | _, _, _ => false
  end.

(** * Properties *)

(** ** Strings and effects *)

Lemma is_empty_nil (s : jsstring) : is_empty s = true <-> s = [].
Proof. destruct s; simpl; split; congruence. Qed.

Lemma is_empty_false (s : jsstring) : is_empty s = false <-> s <> [].
Proof. destruct s; simpl; split; congruence. Qed.

Lemma str_eqb_refl (s : jsstring) : str_eqb s s = true.
Proof.
  induction s as [|x s IH]; simpl; [reflexivity|].
  now rewrite N.eqb_refl, IH.
Qed.

Lemma startsWith_app (p s : jsstring) : startsWith p (p ++ s) = true.
Proof.
  induction p as [|x p IH]; simpl; [reflexivity|].
  now rewrite N.eqb_refl, IH.
Qed.

(** Unfolding of the monadic operations down to pairs. *)
Ltac eff_unfold :=
  unfold try_catch, try_catch_finally, bind, when, modify, ret, throw,
         await_fetch, Response_json, prop, or_throw, state_of, fulfilled in *.

(** ** The chat page *)

Section ChatFacts.
Import Chat.

Lemma textToSend_cases (messageText : option jsstring) (p : Page) :
  textToSend messageText p =
    match messageText with
    | Some s => if is_empty s then inputMessage p else s
    | None => inputMessage p
    end.
Proof. destruct messageText as [[|c s]|]; reflexivity. Qed.

(** The guard of [sendMessage] lets the call through exactly when the
    text is not blank and the flag is down. *)
Lemma sendMessage_guard (text : jsstring) (p : Page) :
  is_empty (trim text) || isLoading p = false <->
  trim text <> [] /\ isLoading p = false.
Proof.
  rewrite orb_false_iff, is_empty_false. tauto.
Qed.

(** What the continuation of [sendMessage] does, whatever the network
    did: it completes normally, lowers the flag, appends one assistant
    message, and touches [sessionId] only if its closure held none. *)
Lemma sendMessage_continue_frame (k : Suspended) (o : FetchOutcome)
    (c c' : Clock) (p : Page) :
  let r := sendMessage_continue k o c c' p in
  fulfilled r = true
  /\ isLoading (state_of r) = false
  /\ inputMessage (state_of r) = inputMessage p
  /\ suspended (state_of r) = suspended p
  /\ network (state_of r) = network p
  /\ (exists m, messages (state_of r) = messages p ++ [m] /\ role m = assistant)
  /\ (sessionId (state_of r) = sessionId p
      \/ (truthy (closure_sessionId k) = false
          /\ truthy (sessionId (state_of r)) = true)).
Proof.
  unfold sendMessage_continue. eff_unfold.
  destruct o as [|[st [data|]]]; simpl.
  - repeat split; eauto.
  - destruct (get data (lit "message")) as [message|] eqn:Hm; simpl.
    + assert (Hs : exists v, get data (lit "sources") = Some v)
        by (destruct data; simpl in *; try discriminate; eauto).
      assert (Hi : exists v, get data (lit "session_id") = Some v)
        by (destruct data; simpl in *; try discriminate; eauto).
      destruct Hs as [srcs Hs], Hi as [sid Hi]. rewrite Hs, Hi. simpl.
      destruct (truthy sid) eqn:Ht, (truthy (closure_sessionId k)) eqn:Hk;
        simpl; repeat split; eauto.
    + repeat split; eauto.
  - repeat split; eauto.
Qed.

(** When [fetch] rejects, or the body is not JSON, the fixed apology is
    what gets appended. *)
Lemma sendMessage_continue_rejected (k : Suspended) (c c' : Clock) (p : Page) :
  state_of (sendMessage_continue k Rejected c c' p)
  = setIsLoading false (setMessages (fun prev => prev ++ [fallbackMessage c']) p).
Proof. reflexivity. Qed.

Lemma sendMessage_continue_not_json (k : Suspended) (st : Z) (c c' : Clock) (p : Page) :
  state_of (sendMessage_continue k (Resolved {| status := st; json := None |}) c c' p)
  = setIsLoading false (setMessages (fun prev => prev ++ [fallbackMessage c']) p).
Proof. reflexivity. Qed.

(** The status of the response is never looked at: two responses with
    the same body are treated alike. *)
Lemma sendMessage_continue_ignores_status (k : Suspended) (st st' : Z)
    (body : option jsval) (c c' : Clock) (p : Page) :
  sendMessage_continue k (Resolved {| status := st; json := body |}) c c' p
  = sendMessage_continue k (Resolved {| status := st'; json := body |}) c c' p.
Proof. reflexivity. Qed.

Section Reachable.
Variable sessionIdFromUrl : option jsstring.

Local Abbreviation step := (step sessionIdFromUrl).
Local Abbreviation run := (run sessionIdFromUrl).
Local Abbreviation mount := (mount sessionIdFromUrl).
Local Abbreviation session_effect := (session_effect sessionIdFromUrl).

Local Abbreviation url_has_id := (url_has_id sessionIdFromUrl).
Local Abbreviation Inv := (Inv sessionIdFromUrl).

Lemma session_effect_frame (p : Page) :
  messages (session_effect p) = messages p
  /\ inputMessage (session_effect p) = inputMessage p
  /\ isLoading (session_effect p) = isLoading p
  /\ suspended (session_effect p) = suspended p
  /\ network (session_effect p) = network p.
Proof.
  unfold Chat.session_effect.
  destruct sessionIdFromUrl as [s|]; [|tauto].
  destruct (negb (is_empty s) && negb (truthy (sessionId p))); simpl; tauto.
Qed.

Lemma session_effect_held (p : Page) :
  truthy (sessionId p) = true -> session_effect p = p.
Proof.
  intros H. unfold Chat.session_effect.
  destruct sessionIdFromUrl as [s|]; [|reflexivity].
  now rewrite H, andb_false_r.
Qed.

Lemma session_effect_unheld (p : Page) :
  truthy (sessionId p) = false ->
  sessionId (session_effect p)
  = match sessionIdFromUrl with
    | Some s => if is_empty s then sessionId p else VStr s
    | None => sessionId p
    end.
Proof.
  intros H. unfold Chat.session_effect.
  destruct sessionIdFromUrl as [s|]; [|reflexivity].
  rewrite H. destruct (is_empty s); reflexivity.
Qed.

Lemma session_effect_settles (p : Page) :
  url_has_id = true -> truthy (sessionId (session_effect p)) = true.
Proof.
  unfold url_has_id, Chat.session_effect.
  destruct sessionIdFromUrl as [s|]; [|discriminate].
  intros Hs. rewrite Hs. simpl.
  destruct (truthy (sessionId p)) eqn:Ht; simpl; [exact Ht|exact Hs].
Qed.

Lemma session_effect_only_if_url (p : Page) :
  url_has_id = false -> session_effect p = p.
Proof.
  unfold url_has_id, Chat.session_effect.
  destruct sessionIdFromUrl as [s|]; [|reflexivity].
  intros Hs. now rewrite Hs.
Qed.

Lemma Inv_mount : Inv mount.
Proof.
  destruct (session_effect_frame initial) as (_ & _ & Hl & Hs & _).
  split; unfold Chat.mount; rewrite ?Hs, ?Hl; simpl;
    auto using session_effect_settles; try congruence; tauto.
Qed.

(** The effect keeps the invariant when the handler kept the parts
    that do not speak of the URL. *)
Lemma Inv_effect (p : Page) :
  (List.length (suspended p) <= 1)%nat ->
  (suspended p <> [] -> isLoading p = true) ->
  (isLoading p = true -> suspended p <> []) ->
  (forall k, In k (suspended p) ->
     truthy (sessionId (session_effect p)) = true ->
     truthy (closure_sessionId k) = true) ->
  Inv (session_effect p).
Proof.
  intros H1 H2 H3 H4.
  destruct (session_effect_frame p) as (_ & _ & Hl & Hs & _).
  split; rewrite ?Hs, ?Hl; auto.
  intros Hu. now apply session_effect_settles.
Qed.

(** If the effect leaves a session id held on [q], whose id is that of
    [p], then [p] held it already. *)
Lemma held_before_effect (p q : Page) :
  (url_has_id = true -> truthy (sessionId p) = true) ->
  sessionId q = sessionId p ->
  truthy (sessionId (session_effect q)) = true ->
  truthy (sessionId p) = true.
Proof.
  intros H4 Hq Ht.
  destruct url_has_id eqn:Hu; [now apply H4|].
  rewrite session_effect_only_if_url in Ht by assumption.
  now rewrite <- Hq.
Qed.

Lemma sendMessage_sessionId (messageText : option jsstring) (c : Clock) (p : Page) :
  sessionId (sendMessage messageText c p) = sessionId p.
Proof.
  unfold sendMessage.
  destruct (is_empty (trim (textToSend messageText p)) || isLoading p);
    reflexivity.
Qed.

Lemma Inv_step (p : Page) (ev : Event) : Inv p -> Inv (step p ev).
Proof.
  intros [H1 H2 H3 H4 H5]. unfold Chat.step.
  destruct ev as [value|messageText c|o c c'|]; simpl.
  - (* Change *)
    apply Inv_effect; simpl; auto.
    intros k Hk Ht. apply H5; [exact Hk|].
    now apply (held_before_effect p (setInputMessage value p)).
  - (* Send *)
    pose proof (sendMessage_sessionId messageText c p) as Hsid.
    unfold sendMessage in *.
    destruct (is_empty (trim (textToSend messageText p)) || isLoading p) eqn:G.
    + apply Inv_effect; auto.
      intros k Hk Ht. apply H5; [exact Hk|].
      now apply (held_before_effect p p).
    + apply orb_false_iff in G. destruct G as [_ G].
      assert (Hnil : suspended p = []).
      { destruct (suspended p) eqn:E; [reflexivity|].
        rewrite H2 in G; congruence. }
      apply Inv_effect; simpl; rewrite ?Hnil; simpl; auto; try congruence.
      intros k [<-|[]] Ht. simpl.
      eapply (held_before_effect p); [exact H4| |exact Ht]. reflexivity.
  - (* Settle *)
    destruct (suspended p) as [|k rest] eqn:E.
    + apply Inv_effect; rewrite ?E; simpl; auto; intros k [].
    + assert (rest = []) by (destruct rest; simpl in *; [reflexivity|lia]).
      subst rest.
      destruct (sendMessage_continue_frame k o c c' (resume p))
        as (_ & Hl & _ & Hs & _).
      simpl in Hs. rewrite E in Hs. simpl in Hs.
      apply Inv_effect; rewrite ?Hs, ?Hl; simpl; auto; try congruence;
        intros k' [].
  - (* NewChat *)
    apply Inv_effect; simpl; auto.
    intros k Hk Ht. apply H5; [exact Hk|].
    destruct url_has_id eqn:Hu; [auto|].
    rewrite session_effect_only_if_url in Ht by assumption.
    simpl in Ht. discriminate.
Qed.

Lemma Inv_run (evs : list Event) (p : Page) : Inv p -> Inv (run p evs).
Proof.
  revert p. induction evs as [|ev evs IH]; intros p Hp; simpl; [exact Hp|].
  apply IH, Inv_step, Hp.
Qed.

(** One event of a [sendMessage] call leaves a held session id
    alone. *)
Lemma step_keeps_sessionId (p : Page) (ev : Event) :
  Inv p -> is_send_event ev = true ->
  truthy (sessionId p) = true ->
  sessionId (step p ev) = sessionId p.
Proof.
  intros [H1 H2 H3 H4 H5] Hev Ht. unfold Chat.step.
  destruct ev as [value|messageText c|o c c'|]; simpl in *; try discriminate.
  - rewrite session_effect_held; simpl; auto.
  - rewrite session_effect_held; rewrite sendMessage_sessionId; auto.
  - destruct (suspended p) as [|k rest] eqn:E.
    + rewrite session_effect_held; auto.
    + destruct (sendMessage_continue_frame k o c c' (resume p))
        as (_ & _ & _ & _ & _ & _ & [Hs|[Hk _]]).
      * simpl in Hs. rewrite session_effect_held; rewrite Hs; auto.
      * rewrite (H5 k) in Hk; [discriminate|now left|exact Ht].
Qed.
End Reachable.
End ChatFacts.

(** *** Scenarios of the specification, run on the model *)

Example scenario_success :
  let p := Chat.run None (Chat.mount None) Scenario.first_exchange in
  map Scenario.shown (Chat.messages p)
  = [(Chat.user, VStr Scenario.hello, VUndefined);
     (Chat.assistant, VStr (lit "hi there"), VArr [])]
  /\ Chat.sessionId p = VStr (lit "abc").
Proof. split; reflexivity. Qed.

Example scenario_network_failure :
  let p := Chat.run None (Chat.mount None)
             [Chat.Send (Some Scenario.hello) Scenario.t0;
              Chat.Settle Rejected Scenario.t1 Scenario.t1] in
  map Scenario.shown (Chat.messages p)
  = [(Chat.user, VStr Scenario.hello, VUndefined);
     (Chat.assistant, VStr Chat.apology, VUndefined)]
  /\ Chat.sessionId p = VNull.
Proof. split; reflexivity. Qed.

(** *** The claims about the chat page *)

(** C1 (evaluated at an input where it fails).  The claim: when the
    network interaction of a [sendMessage] call fails -- network error,
    non-2xx status or malformed body -- exactly one assistant message with
    the fixed apology text and no sources is appended, and nothing is
    thrown to the caller.  [sendMessage] never reads the status: the
    backend answers "hello" with status 500 and a JSON error body, and the
    message appended is an assistant message whose content is [undefined]
    and whose sources are the empty array; the apology appears nowhere.
    The call still completes normally and lowers the flag. *)
Theorem sendMessage_non2xx_shows_no_apology :
  map Scenario.shown
    (Chat.messages
       (Chat.run None (Chat.mount None)
          [Chat.Send (Some Scenario.hello) Scenario.t0;
           Chat.Settle Scenario.server_error Scenario.t1 Scenario.t1]))
  = [(Chat.user, VStr Scenario.hello, VUndefined);
     (Chat.assistant, VUndefined, VArr [])]
  /\ fulfilled
       (Chat.sendMessage_continue {| Chat.closure_sessionId := VNull |}
          Scenario.server_error Scenario.t1 Scenario.t1
          (Chat.resume (Chat.sendMessage (Some Scenario.hello) Scenario.t0 Chat.initial)))
     = true
  /\ Chat.isLoading
       (Chat.run None (Chat.mount None)
          [Chat.Send (Some Scenario.hello) Scenario.t0;
           Chat.Settle Scenario.server_error Scenario.t1 Scenario.t1])
     = false.
Proof. repeat split; reflexivity. Qed.

(** C2.  Over every sequence of [sendMessage] calls (typing, sending,
    responses arriving), once a session id is held -- in particular once
    it has been set from a server response -- it stays what it is,
    whatever session ids later responses carry.  The page may have been
    brought to that point by any events at all. *)
Theorem sessionId_first_writer_wins
    (sessionIdFromUrl : option jsstring) (before later : list Chat.Event) :
  forallb Chat.is_send_event later = true ->
  truthy (Chat.sessionId (Chat.run sessionIdFromUrl (Chat.mount sessionIdFromUrl) before)) = true ->
  Chat.sessionId
    (Chat.run sessionIdFromUrl
       (Chat.run sessionIdFromUrl (Chat.mount sessionIdFromUrl) before) later)
  = Chat.sessionId (Chat.run sessionIdFromUrl (Chat.mount sessionIdFromUrl) before).
Proof.
  intros Hlater.
  assert (Hp : Inv sessionIdFromUrl
                 (Chat.run sessionIdFromUrl (Chat.mount sessionIdFromUrl) before))
    by apply Inv_run, Inv_mount.
  generalize dependent (Chat.run sessionIdFromUrl (Chat.mount sessionIdFromUrl) before).
  induction later as [|ev later IH]; intros p Hp Ht; simpl; [reflexivity|].
  simpl in Hlater. apply andb_true_iff in Hlater. destruct Hlater as [Hev Hlater].
  pose proof (step_keeps_sessionId sessionIdFromUrl p ev Hp Hev Ht) as Hstep.
  rewrite IH.
  - exact Hstep.
  - exact Hlater.
  - now apply Inv_step.
  - now rewrite Hstep.
Qed.

Lemma sessionId_first_writer_wins_witness :
  Chat.sessionId
    (Chat.run None (Chat.run None (Chat.mount None) Scenario.first_exchange)
       Scenario.second_exchange)
  = Chat.sessionId (Chat.run None (Chat.mount None) Scenario.first_exchange).
Proof.
  apply (sessionId_first_writer_wins None Scenario.first_exchange Scenario.second_exchange);
    reflexivity.
Defined.

(** C4.  When the text is not blank after trimming and no request is in
    flight, the synchronous part of [sendMessage] -- everything up to the
    [await], so before the network answers -- appends exactly one user
    message holding that text, empties the input buffer, raises the flag
    and leaves one request outstanding. *)
Theorem sendMessage_optimistic_update
    (messageText : option jsstring) (c : Clock) (p : Chat.Page) :
  trim (Chat.textToSend messageText p) <> [] ->
  Chat.isLoading p = false ->
  Chat.messages (Chat.sendMessage messageText c p)
  = Chat.messages p
    ++ [{| Chat.id := Number_toString (now c); Chat.role := Chat.user;
           Chat.content := VStr (Chat.textToSend messageText p);
           Chat.timestamp := date c; Chat.sources := VUndefined |}]
  /\ Chat.inputMessage (Chat.sendMessage messageText c p) = []
  /\ Chat.isLoading (Chat.sendMessage messageText c p) = true
  /\ Chat.sessionId (Chat.sendMessage messageText c p) = Chat.sessionId p
  /\ Chat.suspended (Chat.sendMessage messageText c p)
     = Chat.suspended p ++ [{| Chat.closure_sessionId := Chat.sessionId p |}]
  /\ Chat.network (Chat.sendMessage messageText c p)
     = Chat.network p
       ++ [Chat.send_request (Chat.textToSend messageText p) (Chat.sessionId p)].
Proof.
  intros Htext Hidle. unfold Chat.sendMessage.
  apply is_empty_false in Htext. rewrite Htext, Hidle. simpl.
  repeat split; reflexivity.
Qed.

Lemma sendMessage_optimistic_update_witness :
  Chat.messages (Chat.sendMessage (Some (lit "  hello ")) Scenario.t0 Chat.initial)
  = [{| Chat.id := lit "1700000000000"; Chat.role := Chat.user;
        Chat.content := VStr (lit "  hello ");
        Chat.timestamp := 1700000000000; Chat.sources := VUndefined |}]
  /\ Chat.inputMessage (Chat.sendMessage (Some (lit "  hello ")) Scenario.t0 Chat.initial) = [].
Proof.
  destruct (sendMessage_optimistic_update (Some (lit "  hello ")) Scenario.t0 Chat.initial)
    as (Hm & Hi & _).
  - vm_compute. discriminate.
  - reflexivity.
  - split; [exact Hm | exact Hi].
Defined.

(** C5.  When the text is empty after trimming, or a request is in
    flight, [sendMessage] returns the page as it found it: same messages,
    session id, input buffer and flag, no request sent, nothing
    suspended. *)
Theorem sendMessage_noop
    (messageText : option jsstring) (c : Clock) (p : Chat.Page) :
  trim (Chat.textToSend messageText p) = [] \/ Chat.isLoading p = true ->
  Chat.sendMessage messageText c p = p.
Proof.
  intros [Hblank|Hbusy]; unfold Chat.sendMessage.
  - now rewrite Hblank.
  - now rewrite Hbusy, orb_true_r.
Qed.

Lemma sendMessage_noop_witness :
  Chat.sendMessage (Some (lit "   ")) Scenario.t0 Chat.initial = Chat.initial
  /\ Chat.sendMessage (Some (lit "again")) Scenario.t1
       (Chat.sendMessage (Some Scenario.hello) Scenario.t0 Chat.initial)
     = Chat.sendMessage (Some Scenario.hello) Scenario.t0 Chat.initial.
Proof.
  split.
  - apply (sendMessage_noop (Some (lit "   ")) Scenario.t0 Chat.initial).
    left. reflexivity.
  - apply (sendMessage_noop (Some (lit "again")) Scenario.t1
             (Chat.sendMessage (Some Scenario.hello) Scenario.t0 Chat.initial)).
    right. reflexivity.
Defined.

(** C8.  [startNewChat] empties the message sequence and unsets the
    session id, sends nothing and suspends nothing (the other fields stay
    as they are), and doing it twice is doing it once -- for the function
    itself, and for the click followed by its render on a page with any
    URL. *)
Theorem startNewChat_resets_idempotently
    (sessionIdFromUrl : option jsstring) (p : Chat.Page) :
  Chat.messages (Chat.startNewChat p) = []
  /\ Chat.sessionId (Chat.startNewChat p) = VNull
  /\ Chat.network (Chat.startNewChat p) = Chat.network p
  /\ Chat.suspended (Chat.startNewChat p) = Chat.suspended p
  /\ Chat.inputMessage (Chat.startNewChat p) = Chat.inputMessage p
  /\ Chat.isLoading (Chat.startNewChat p) = Chat.isLoading p
  /\ Chat.startNewChat (Chat.startNewChat p) = Chat.startNewChat p
  /\ Chat.step sessionIdFromUrl (Chat.step sessionIdFromUrl p Chat.NewChat) Chat.NewChat
     = Chat.step sessionIdFromUrl p Chat.NewChat.
Proof.
  repeat (split; [reflexivity|]).
  unfold Chat.step, Chat.session_effect. simpl.
  destruct sessionIdFromUrl as [s|]; [|reflexivity].
  destruct (is_empty s) eqn:Hs; reflexivity.
Qed.

(** On a page opened with a [session_id] in its URL, the render that
    follows [startNewChat] runs the effect again, and the URL id is taken
    up once more. *)
Lemma NewChat_then_effect (s : jsstring) (p : Chat.Page) :
  s <> [] ->
  Chat.sessionId (Chat.step (Some s) p Chat.NewChat) = VStr s
  /\ Chat.step (Some s) (Chat.step (Some s) p Chat.NewChat) Chat.NewChat
     = Chat.step (Some s) p Chat.NewChat.
Proof.
  intros Hs. apply is_empty_false in Hs.
  unfold Chat.step, Chat.session_effect. simpl. rewrite Hs. simpl.
  split; reflexivity.
Qed.

(** C10.  The effect that reads [session_id] from the page URL adopts it
    only when no session id is held: a held id is never overwritten by the
    URL's (the page is left exactly as it was), whenever the effect
    changes the id none was held, and at page load -- where none is held
    -- a non-empty URL id is adopted. *)
Theorem url_session_id_first_writer_wins
    (sessionIdFromUrl : option jsstring) (p : Chat.Page) :
  (truthy (Chat.sessionId p) = true -> Chat.session_effect sessionIdFromUrl p = p)
  /\ (Chat.sessionId (Chat.session_effect sessionIdFromUrl p) <> Chat.sessionId p ->
      truthy (Chat.sessionId p) = false
      /\ exists s, sessionIdFromUrl = Some s /\ s <> []
                   /\ Chat.sessionId (Chat.session_effect sessionIdFromUrl p) = VStr s)
  /\ (forall s, sessionIdFromUrl = Some s -> s <> [] ->
      Chat.sessionId (Chat.mount sessionIdFromUrl) = VStr s).
Proof.
  split; [apply session_effect_held|]. split.
  - intros Hchg. unfold Chat.session_effect in *.
    destruct sessionIdFromUrl as [s|]; [|congruence].
    destruct (is_empty s) eqn:Hs; simpl in *; [congruence|].
    destruct (truthy (Chat.sessionId p)) eqn:Ht; simpl in *; [congruence|].
    split; [reflexivity|]. exists s. apply is_empty_false in Hs. auto.
  - intros s -> Hs. apply is_empty_false in Hs.
    unfold Chat.mount, Chat.session_effect. rewrite Hs. reflexivity.
Qed.

Lemma url_session_id_first_writer_wins_witness :
  Chat.session_effect (Some (lit "from-url"))
    (Chat.run None (Chat.mount None) Scenario.first_exchange)
  = Chat.run None (Chat.mount None) Scenario.first_exchange
  /\ Chat.sessionId (Chat.mount (Some (lit "from-url"))) = VStr (lit "from-url").
Proof.
  destruct (url_session_id_first_writer_wins (Some (lit "from-url"))
              (Chat.run None (Chat.mount None) Scenario.first_exchange))
    as (Hheld & _ & Hload).
  split.
  - apply Hheld. reflexivity.
  - apply (Hload (lit "from-url")); [reflexivity | vm_compute; discriminate].
Defined.

(** ** The dashboard page *)

Section DashboardFacts.
Import Dashboard.

Lemma Suspended_eqb_refl (k : Suspended) : Suspended_eqb k k = true.
Proof. destruct k; simpl; [reflexivity|apply Z.eqb_refl]. Qed.

Lemma awaited_after_suspend (k : Suspended) (l : list Suspended) :
  existsb (Suspended_eqb k) (l ++ [k]) = true.
Proof.
  rewrite existsb_app. simpl. now rewrite Suspended_eqb_refl, orb_true_r.
Qed.

(** The load that was just started is the one a settling [Promise.all]
    takes up. *)
Lemma step_LoadSettled (p : Page) (o1 o2 o3 : FetchOutcome) :
  step (fetchDashboardData p) (LoadSettled o1 o2 o3)
  = state_of (fetchDashboardData_continue o1 o2 o3
                (resume AwaitDashboard (fetchDashboardData p))).
Proof.
  unfold step. replace (suspended (fetchDashboardData p))
    with (suspended p ++ [AwaitDashboard]) by reflexivity.
  now rewrite awaited_after_suspend.
Qed.


(** When one of the three requests is rejected, [Promise.all] is, and
    the continuation only raises the error and lowers the flag. *)
Lemma fetchDashboardData_continue_rejected (o1 o2 o3 : FetchOutcome) (q : Page) :
  o1 = Rejected \/ o2 = Rejected \/ o3 = Rejected ->
  state_of (fetchDashboardData_continue o1 o2 o3 q)
  = setLoading false (setError (Some load_failed) q).
Proof.
  intros H. unfold fetchDashboardData_continue. eff_unfold.
  destruct o1 as [|r1]; [reflexivity|].
  destruct o2 as [|r2]; [reflexivity|].
  destruct o3 as [|r3]; [reflexivity|].
  destruct H as [H|[H|H]]; discriminate.
Qed.

(** When all three resolve with usable responses, each slice is set from
    its own response alone. *)
Lemma fetchDashboardData_continue_resolved (r1 r2 r3 : Response) (q : Page) :
  usable_stats r1 ->
  usable_list (lit "sessions") r2 ->
  usable_list (lit "insights") r3 ->
  let q' := state_of (fetchDashboardData_continue
                        (Resolved r1) (Resolved r2) (Resolved r3) q) in
  (ok r1 = false -> stats q' = stats q)
  /\ (forall d, ok r1 = true -> json r1 = Some d -> stats q' = d)
  /\ (ok r2 = false -> recentSessions q' = recentSessions q)
  /\ (forall d v, ok r2 = true -> json r2 = Some d -> get d (lit "sessions") = Some v ->
      recentSessions q' = or_else v (VArr []))
  /\ (ok r3 = false -> insights q' = insights q)
  /\ (forall d v, ok r3 = true -> json r3 = Some d -> get d (lit "insights") = Some v ->
      insights q' = or_else v (VArr []))
  /\ error q' = error q
  /\ loading q' = false
  /\ crashed q' = crashed q
  /\ suspended q' = suspended q
  /\ network q' = network q.
Proof.
  intros U1 U2 U3. unfold usable_stats, usable_list in *.
  unfold fetchDashboardData_continue. eff_unfold.
  destruct (ok r1) eqn:E1; [destruct (U1 eq_refl) as (d1 & J1)|];
  (destruct (ok r2) eqn:E2; [destruct (U2 eq_refl) as (d2 & v2 & J2 & G2)|]);
  (destruct (ok r3) eqn:E3; [destruct (U3 eq_refl) as (d3 & v3 & J3 & G3)|]);
  cbn -[lit or_else ok];
  rewrite ?E1, ?E2, ?E3, ?J1, ?J2, ?G2, ?J3, ?G3; cbn -[lit or_else ok];
  rewrite ?E1, ?E2, ?E3, ?J1, ?J2, ?G2, ?J3, ?G3; cbn -[lit or_else ok];
  rewrite ?E1, ?E2, ?E3, ?J1, ?J2, ?G2, ?J3, ?G3; cbn -[lit or_else ok];
  repeat split; intros; try discriminate; congruence.
Qed.

(** Filtering a list without [null] entries throws nowhere, and keeps
    the sessions with another id. *)
Lemma Array_filter_sessions (sessionId : Z) (l : list jsval) :
  session_list l ->
  Array_filter (other_session sessionId) l
  = Some (filter (fun s => negb (has_id sessionId s)) l).
Proof.
  unfold session_list. induction 1 as [|s l Hs _ IH]; simpl; [reflexivity|].
  unfold other_session at 1, has_id at 1.
  destruct (get s (lit "id")) as [i|]; [|congruence].
  rewrite IH. destruct i; reflexivity.
Qed.

End DashboardFacts.

(** *** Scenarios of the specification, run on the model *)

Example scenario_sessions_endpoint_down :
  let q := Dashboard.step (Dashboard.fetchDashboardData Scenario.dashboard)
             (Dashboard.LoadSettled (Resolved Scenario.stats_ok)
                (Resolved Scenario.sessions_down) (Resolved Scenario.insights_ok)) in
  Dashboard.stats q = Scenario.new_stats
  /\ Dashboard.recentSessions q = VArr Scenario.three_sessions
  /\ Dashboard.insights q = Scenario.new_insights
  /\ Dashboard.error q = None.
Proof. repeat split; reflexivity. Qed.

Example scenario_delete_42 :
  Dashboard.recentSessions
    (Dashboard.run Scenario.dashboard
       [Dashboard.Delete true 42; Dashboard.DeleteSettled 42 (Resolved Scenario.no_content)])
  = VArr [Scenario.session 41 "Graph neural networks";
          Scenario.session 43 "Perovskite solar cells"].
Proof. reflexivity. Qed.

(** A 2xx response whose body is not JSON is neither of the cases the
    loader tells apart: the slices before it are set, the error is raised,
    the slices after it are left. *)
Example scenario_body_not_json :
  let q := Dashboard.step (Dashboard.fetchDashboardData Scenario.dashboard)
             (Dashboard.LoadSettled (Resolved Scenario.stats_ok)
                (Resolved Scenario.no_content) (Resolved Scenario.insights_ok)) in
  Dashboard.stats q = Scenario.new_stats
  /\ Dashboard.recentSessions q = VArr Scenario.three_sessions
  /\ Dashboard.insights q = VArr []
  /\ Dashboard.error q = Some Dashboard.load_failed.
Proof. repeat split; reflexivity. Qed.

(** *** The claims about the dashboard *)

(** C3, as stated, fails.  The claim: the three responses are applied
    independently -- a non-2xx response leaves its slice as it was while
    the successful slices are still updated and no error flag is set.
    The three slices are set inside one [try]: with stats answered 503,
    sessions answered 204 without a body and insights answered 200 with
    insights, [sessionsResponse.json()] throws, the insights of the
    successful response are never set, and the error flag is raised. *)
Lemma fetchDashboardData_unreadable_body_breaks_independence :
  ~ (forall (p : Dashboard.Page) (r1 r2 r3 : Response),
       (ok r1 = false ->
        Dashboard.stats
          (Dashboard.step (Dashboard.fetchDashboardData p)
             (Dashboard.LoadSettled (Resolved r1) (Resolved r2) (Resolved r3)))
        = Dashboard.stats p)
       /\ (forall d, ok r1 = true -> json r1 = Some d ->
           Dashboard.stats
             (Dashboard.step (Dashboard.fetchDashboardData p)
                (Dashboard.LoadSettled (Resolved r1) (Resolved r2) (Resolved r3)))
           = d)
       /\ (ok r2 = false ->
           Dashboard.recentSessions
             (Dashboard.step (Dashboard.fetchDashboardData p)
                (Dashboard.LoadSettled (Resolved r1) (Resolved r2) (Resolved r3)))
           = Dashboard.recentSessions p)
       /\ (forall d v, ok r2 = true -> json r2 = Some d ->
           get d (lit "sessions") = Some v ->
           Dashboard.recentSessions
             (Dashboard.step (Dashboard.fetchDashboardData p)
                (Dashboard.LoadSettled (Resolved r1) (Resolved r2) (Resolved r3)))
           = or_else v (VArr []))
       /\ (ok r3 = false ->
           Dashboard.insights
             (Dashboard.step (Dashboard.fetchDashboardData p)
                (Dashboard.LoadSettled (Resolved r1) (Resolved r2) (Resolved r3)))
           = Dashboard.insights p)
       /\ (forall d v, ok r3 = true -> json r3 = Some d ->
           get d (lit "insights") = Some v ->
           Dashboard.insights
             (Dashboard.step (Dashboard.fetchDashboardData p)
                (Dashboard.LoadSettled (Resolved r1) (Resolved r2) (Resolved r3)))
           = or_else v (VArr []))
       /\ Dashboard.error
            (Dashboard.step (Dashboard.fetchDashboardData p)
               (Dashboard.LoadSettled (Resolved r1) (Resolved r2) (Resolved r3)))
          = None
       /\ Dashboard.loading
            (Dashboard.step (Dashboard.fetchDashboardData p)
               (Dashboard.LoadSettled (Resolved r1) (Resolved r2) (Resolved r3)))
          = false).
Proof.
  intros H.
  destruct (H Scenario.dashboard {| status := 503; json := None |}
              Scenario.no_content Scenario.insights_ok)
    as (_ & _ & _ & _ & _ & Hinsights & Herror & _).
  specialize (Hinsights (VObj [(lit "insights", Scenario.new_insights)])
                Scenario.new_insights eq_refl eq_refl eq_refl).
  vm_compute in Hinsights. vm_compute in Herror. discriminate Herror.
Qed.

(** C3, amended.  A load started by [fetchDashboardData] and settled by
    its three requests.  When all three resolve and every 2xx response
    among them has a body the loader can read (it is JSON, and for the
    sessions and the insights not [null]), each slice follows its own
    response: a non-2xx response leaves its slice as it was, a 2xx one
    replaces it, and the error flag stays down.  When any of the three is
    rejected by the network, no slice changes and the error flag is
    raised.  Either way the loading flag is lowered. *)
Theorem fetchDashboardData_applies_slices_independently (p : Dashboard.Page) :
  (forall r1 r2 r3 : Response,
     usable_stats r1 ->
     usable_list (lit "sessions") r2 ->
     usable_list (lit "insights") r3 ->
     (ok r1 = false ->
      Dashboard.stats
        (Dashboard.step (Dashboard.fetchDashboardData p)
           (Dashboard.LoadSettled (Resolved r1) (Resolved r2) (Resolved r3)))
      = Dashboard.stats p)
     /\ (forall d, ok r1 = true -> json r1 = Some d ->
         Dashboard.stats
           (Dashboard.step (Dashboard.fetchDashboardData p)
              (Dashboard.LoadSettled (Resolved r1) (Resolved r2) (Resolved r3)))
         = d)
     /\ (ok r2 = false ->
         Dashboard.recentSessions
           (Dashboard.step (Dashboard.fetchDashboardData p)
              (Dashboard.LoadSettled (Resolved r1) (Resolved r2) (Resolved r3)))
         = Dashboard.recentSessions p)
     /\ (forall d v, ok r2 = true -> json r2 = Some d ->
         get d (lit "sessions") = Some v ->
         Dashboard.recentSessions
           (Dashboard.step (Dashboard.fetchDashboardData p)
              (Dashboard.LoadSettled (Resolved r1) (Resolved r2) (Resolved r3)))
         = or_else v (VArr []))
     /\ (ok r3 = false ->
         Dashboard.insights
           (Dashboard.step (Dashboard.fetchDashboardData p)
              (Dashboard.LoadSettled (Resolved r1) (Resolved r2) (Resolved r3)))
         = Dashboard.insights p)
     /\ (forall d v, ok r3 = true -> json r3 = Some d ->
         get d (lit "insights") = Some v ->
         Dashboard.insights
           (Dashboard.step (Dashboard.fetchDashboardData p)
              (Dashboard.LoadSettled (Resolved r1) (Resolved r2) (Resolved r3)))
         = or_else v (VArr []))
     /\ Dashboard.error
          (Dashboard.step (Dashboard.fetchDashboardData p)
             (Dashboard.LoadSettled (Resolved r1) (Resolved r2) (Resolved r3)))
        = None
     /\ Dashboard.loading
          (Dashboard.step (Dashboard.fetchDashboardData p)
             (Dashboard.LoadSettled (Resolved r1) (Resolved r2) (Resolved r3)))
        = false)
  /\ (forall o1 o2 o3 : FetchOutcome,
        o1 = Rejected \/ o2 = Rejected \/ o3 = Rejected ->
        Dashboard.stats
          (Dashboard.step (Dashboard.fetchDashboardData p) (Dashboard.LoadSettled o1 o2 o3))
        = Dashboard.stats p
        /\ Dashboard.recentSessions
             (Dashboard.step (Dashboard.fetchDashboardData p) (Dashboard.LoadSettled o1 o2 o3))
           = Dashboard.recentSessions p
        /\ Dashboard.insights
             (Dashboard.step (Dashboard.fetchDashboardData p) (Dashboard.LoadSettled o1 o2 o3))
           = Dashboard.insights p
        /\ Dashboard.error
             (Dashboard.step (Dashboard.fetchDashboardData p) (Dashboard.LoadSettled o1 o2 o3))
           = Some Dashboard.load_failed
        /\ Dashboard.loading
             (Dashboard.step (Dashboard.fetchDashboardData p) (Dashboard.LoadSettled o1 o2 o3))
           = false).
Proof.
  split.
  - intros r1 r2 r3 U1 U2 U3. rewrite step_LoadSettled.
    destruct (fetchDashboardData_continue_resolved r1 r2 r3
                (Dashboard.resume Dashboard.AwaitDashboard (Dashboard.fetchDashboardData p))
                U1 U2 U3)
      as (S1 & S2 & L1 & L2 & I1 & I2 & He & Hl & _).
    repeat split; auto.
  - intros o1 o2 o3 H. rewrite step_LoadSettled.
    rewrite fetchDashboardData_continue_rejected by exact H.
    repeat split; reflexivity.
Qed.

Lemma fetchDashboardData_applies_slices_independently_witness :
  Dashboard.recentSessions
    (Dashboard.step (Dashboard.fetchDashboardData Scenario.dashboard)
       (Dashboard.LoadSettled (Resolved Scenario.stats_ok)
          (Resolved Scenario.sessions_down) (Resolved Scenario.insights_ok)))
  = Dashboard.recentSessions Scenario.dashboard
  /\ Dashboard.stats
       (Dashboard.step (Dashboard.fetchDashboardData Scenario.dashboard)
          (Dashboard.LoadSettled (Resolved Scenario.stats_ok)
             (Resolved Scenario.sessions_down) (Resolved Scenario.insights_ok)))
     = Scenario.new_stats
  /\ Dashboard.error
       (Dashboard.step (Dashboard.fetchDashboardData Scenario.dashboard)
          (Dashboard.LoadSettled (Resolved Scenario.stats_ok)
             Rejected (Resolved Scenario.insights_ok)))
     = Some Dashboard.load_failed.
Proof.
  destruct (fetchDashboardData_applies_slices_independently Scenario.dashboard)
    as [Hresolved Hrejected].
  destruct (Hresolved Scenario.stats_ok Scenario.sessions_down Scenario.insights_ok)
    as (_ & Hstats & Hsessions & _).
  - intros _. exists Scenario.new_stats. reflexivity.
  - intros H. vm_compute in H. discriminate.
  - intros _. exists (VObj [(lit "insights", Scenario.new_insights)]), Scenario.new_insights.
    split; reflexivity.
  - destruct (Hrejected (Resolved Scenario.stats_ok) Rejected (Resolved Scenario.insights_ok))
      as (_ & _ & _ & Herr & _).
    + right. left. reflexivity.
    + split; [|split].
      * apply Hsessions. reflexivity.
      * apply Hstats; reflexivity.
      * exact Herr.
Defined.



(** C9.  When the user declines the confirmation dialog, [deleteSession]
    returns at once: the page -- list, stats, insights, error flag, and
    the requests sent -- is what it was. *)
Theorem deleteSession_declined (sessionId : Z) (p : Dashboard.Page) :
  Dashboard.deleteSession false sessionId p = p
  /\ Dashboard.step p (Dashboard.Delete false sessionId) = p.
Proof. split; reflexivity. Qed.

(** ** The base URL *)

(** Every request made through the axios client of [lib/api.ts] goes
    under the configured base. *)
Lemma api_request_under_base
    (env : option jsstring) (m : Method) (path : jsstring) (data : jsval) :
  Api.strip_trailing_slash (Api.API_BASE_URL env) = Api.API_BASE_URL env ->
  startsWith (Api.API_BASE_URL env) (url (Api.api env m path data)) = true.
Proof.
  intros H. unfold Api.api, Api.combineURLs. simpl. rewrite H.
  apply startsWith_app.
Qed.

(** C7 (evaluated at an input where it fails).  The claim: every request
    of the frontend goes to a path under one configurable base URL, read
    from an environment variable with a localhost fallback.  With the
    variable set for a deployment, the axios client of [lib/api.ts] sends
    the chat message under that base, while [sendMessage] of the chat page
    and the four requests of the dashboard go to
    [http://127.0.0.1:8000/api/...], a base written out at each call site;
    it is not even the fallback [http://localhost:8000/api] that applies
    when the variable is unset. *)
Theorem page_requests_ignore_API_BASE_URL :
  map url
    (Chat.network (Chat.sendMessage (Some Scenario.hello) Scenario.t0 Chat.initial)
     ++ Dashboard.network (Dashboard.deleteSession true 42 Dashboard.mount))
  = [lit "http://127.0.0.1:8000/api/chat/send/";
     lit "http://127.0.0.1:8000/api/chat/dashboard/stats/";
     lit "http://127.0.0.1:8000/api/chat/dashboard/sessions/";
     lit "http://127.0.0.1:8000/api/chat/dashboard/insights/";
     lit "http://127.0.0.1:8000/api/chat/dashboard/sessions/42/delete/"]
  /\ existsb (fun r => startsWith (Api.API_BASE_URL Scenario.deployed) (url r))
       (Chat.network (Chat.sendMessage (Some Scenario.hello) Scenario.t0 Chat.initial)
        ++ Dashboard.network (Dashboard.deleteSession true 42 Dashboard.mount))
     = false
  /\ existsb (fun r => startsWith (Api.API_BASE_URL None) (url r))
       (Chat.network (Chat.sendMessage (Some Scenario.hello) Scenario.t0 Chat.initial)
        ++ Dashboard.network (Dashboard.deleteSession true 42 Dashboard.mount))
     = false
  /\ url (Api.chatAPI_sendMessage Scenario.deployed Scenario.hello VNull)
     = lit "https://api.scholar.example/api/chat/send/".
Proof. repeat split; reflexivity. Qed.


(** * Further properties *)

(** ** The two sides of the guard of [sendMessage] *)

Lemma sendMessage_at_guard
    (messageText : option jsstring) (c : Clock) (p : Chat.Page) :
  trim (Chat.textToSend messageText p) = [] \/ Chat.isLoading p = true ->
  Chat.sendMessage messageText c p = p.
Proof.
  unfold Chat.sendMessage. intros [Hblank|Hbusy].
  - rewrite Hblank. reflexivity.
  - rewrite Hbusy. now rewrite orb_true_r.
Qed.

Lemma sendMessage_past_guard
    (messageText : option jsstring) (c : Clock) (p : Chat.Page) :
  trim (Chat.textToSend messageText p) <> [] ->
  Chat.isLoading p = false ->
  Chat.messages (Chat.sendMessage messageText c p)
  = Chat.messages p ++ [userMessage (Chat.textToSend messageText p) c]
  /\ Chat.inputMessage (Chat.sendMessage messageText c p) = []
  /\ Chat.isLoading (Chat.sendMessage messageText c p) = true
  /\ Chat.sessionId (Chat.sendMessage messageText c p) = Chat.sessionId p
  /\ Chat.suspended (Chat.sendMessage messageText c p)
     = Chat.suspended p ++ [{| Chat.closure_sessionId := Chat.sessionId p |}]
  /\ Chat.network (Chat.sendMessage messageText c p)
     = Chat.network p
       ++ [Chat.send_request (Chat.textToSend messageText p) (Chat.sessionId p)].
Proof.
  intros Htext Hidle.
  assert (G : is_empty (trim (Chat.textToSend messageText p)) || Chat.isLoading p = false)
    by (apply sendMessage_guard; auto).
  unfold Chat.sendMessage. rewrite G. simpl. repeat split; reflexivity.
Qed.

(** ** The chat page over whole exchanges *)

Section ChatExchanges.
Variable sessionIdFromUrl : option jsstring.

Local Abbreviation step := (Chat.step sessionIdFromUrl).
Local Abbreviation run := (Chat.run sessionIdFromUrl).
Local Abbreviation mount := (Chat.mount sessionIdFromUrl).
Local Abbreviation session_effect := (Chat.session_effect sessionIdFromUrl).
Local Abbreviation Inv := (Inv sessionIdFromUrl).
Local Abbreviation reachable := (reachable sessionIdFromUrl).

Lemma run_app (p : Chat.Page) (evs evs' : list Chat.Event) :
  run p (evs ++ evs') = run (run p evs) evs'.
Proof. apply fold_left_app. Qed.

Lemma reachable_Inv (p : Chat.Page) : reachable p -> Inv p.
Proof. intros [evs ->]. apply Inv_run, Inv_mount. Qed.

Lemma reachable_step (p : Chat.Page) (ev : Chat.Event) :
  reachable p -> reachable (step p ev).
Proof.
  intros [evs ->]. exists (evs ++ [ev]). now rewrite run_app.
Qed.

(** On a reachable page the effect has nothing left to do. *)
Lemma Inv_effect_done (p : Chat.Page) : Inv p -> session_effect p = p.
Proof.
  intros Hp. destruct (url_has_id sessionIdFromUrl) eqn:Hu.
  - apply session_effect_held. now apply (inv_url _ _ Hp).
  - now apply session_effect_only_if_url.
Qed.

Lemma Inv_idle_nil (p : Chat.Page) :
  Inv p -> Chat.isLoading p = false -> Chat.suspended p = [].
Proof.
  intros Hp Hidle. destruct (Chat.suspended p) eqn:E; [reflexivity|].
  rewrite (inv_flag _ _ Hp) in Hidle; [discriminate|]. rewrite E. discriminate.
Qed.

Lemma Inv_busy_one (p : Chat.Page) :
  Inv p -> Chat.isLoading p = true -> exists k, Chat.suspended p = [k].
Proof.
  intros Hp Hbusy. pose proof (inv_idle _ _ Hp Hbusy) as Hne.
  pose proof (inv_one _ _ Hp) as Hlen.
  destruct (Chat.suspended p) as [|k [|k' rest]]; simpl in *;
    [congruence | eauto | lia].
Qed.

(** After an event of a [sendMessage] call the effect has nothing to
    do: the render leaves the page as the handler left it. *)
Lemma step_is_handle (p : Chat.Page) (ev : Chat.Event) :
  Inv p -> Chat.is_send_event ev = true -> step p ev = Chat.handle p ev.
Proof.
  intros Hp Hev. unfold Chat.step.
  destruct (url_has_id sessionIdFromUrl) eqn:Hu;
    [|now apply session_effect_only_if_url].
  pose proof (inv_url _ _ Hp Hu) as Ht.
  apply session_effect_held.
  destruct ev as [value|messageText c|o c c'|]; simpl in *; try discriminate.
  - exact Ht.
  - now rewrite sendMessage_sessionId.
  - destruct (Chat.suspended p) as [|k rest]; [exact Ht|].
    destruct (sendMessage_continue_frame k o c c' (Chat.resume p))
      as (_ & _ & _ & _ & _ & _ & [Hs|[_ Hs]]).
    + now rewrite Hs.
    + exact Hs.
Qed.

(** A call of [sendMessage] that passes the guard, then its render. *)
Lemma step_Send_accepted (messageText : option jsstring) (c : Clock) (p : Chat.Page) :
  Inv p -> Chat.isLoading p = false ->
  trim (Chat.textToSend messageText p) <> [] ->
  step p (Chat.Send messageText c) = Chat.sendMessage messageText c p
  /\ Chat.suspended (step p (Chat.Send messageText c))
     = [{| Chat.closure_sessionId := Chat.sessionId p |}].
Proof.
  intros Hp Hidle Htext.
  assert (Hstep : step p (Chat.Send messageText c) = Chat.sendMessage messageText c p)
    by (apply (step_is_handle p (Chat.Send messageText c)); auto).
  split; [exact Hstep|]. rewrite Hstep.
  destruct (sendMessage_past_guard messageText c p Htext Hidle)
    as (_ & _ & _ & _ & Hs & _).
  rewrite Hs, (Inv_idle_nil p Hp Hidle). reflexivity.
Qed.

(** The settling of the one outstanding request, then its render. *)
Lemma step_Settle_one (k : Chat.Suspended) (o : FetchOutcome) (c c' : Clock)
    (p : Chat.Page) :
  Inv p -> Chat.suspended p = [k] ->
  step p (Chat.Settle o c c')
  = state_of (Chat.sendMessage_continue k o c c' (Chat.resume p)).
Proof.
  intros Hp Hs.
  assert (Hh : Chat.handle p (Chat.Settle o c c')
               = state_of (Chat.sendMessage_continue k o c c' (Chat.resume p)))
    by (simpl; now rewrite Hs).
  rewrite <- Hh. apply (step_is_handle p (Chat.Settle o c c')); auto.
Qed.

End ChatExchanges.

(** X1.  Every exchange completes: on a reachable page at rest, a call of
    [sendMessage] with text that is not blank, followed by the settling of
    its request in any way at all, appends the user message and exactly
    one assistant message, sends one request, and leaves the page at rest
    again with an empty input. *)
Theorem exchange_completes
    (sessionIdFromUrl : option jsstring) (messageText : option jsstring)
    (c c1 c2 : Clock) (o : FetchOutcome) (p : Chat.Page) :
  reachable sessionIdFromUrl p ->
  Chat.isLoading p = false ->
  trim (Chat.textToSend messageText p) <> [] ->
  exists reply,
    Chat.role reply = Chat.assistant
    /\ Chat.messages
         (Chat.run sessionIdFromUrl p [Chat.Send messageText c; Chat.Settle o c1 c2])
       = Chat.messages p ++ [userMessage (Chat.textToSend messageText p) c; reply]
    /\ Chat.isLoading
         (Chat.run sessionIdFromUrl p [Chat.Send messageText c; Chat.Settle o c1 c2])
       = false
    /\ Chat.suspended
         (Chat.run sessionIdFromUrl p [Chat.Send messageText c; Chat.Settle o c1 c2])
       = []
    /\ Chat.inputMessage
         (Chat.run sessionIdFromUrl p [Chat.Send messageText c; Chat.Settle o c1 c2])
       = []
    /\ Chat.network
         (Chat.run sessionIdFromUrl p [Chat.Send messageText c; Chat.Settle o c1 c2])
       = Chat.network p
         ++ [Chat.send_request (Chat.textToSend messageText p) (Chat.sessionId p)].
Proof.
  intros Hr Hidle Htext. pose proof (reachable_Inv _ _ Hr) as Hp.
  destruct (step_Send_accepted sessionIdFromUrl messageText c p Hp Hidle Htext)
    as [Hsend Hsusp].
  destruct (sendMessage_past_guard messageText c p Htext Hidle)
    as (Hm & Hi & _ & _ & _ & Hn).
  unfold Chat.run. simpl fold_left.
  rewrite (step_Settle_one sessionIdFromUrl _ o c1 c2 _
             (Inv_step _ _ _ Hp) Hsusp).
  destruct (sendMessage_continue_frame
              {| Chat.closure_sessionId := Chat.sessionId p |} o c1 c2
              (Chat.resume (Chat.step sessionIdFromUrl p (Chat.Send messageText c))))
    as (_ & Hl & Hin & Hs & Hnet & (reply & Hmsg & Hrole) & _).
  exists reply. split; [exact Hrole|].
  rewrite Hmsg, Hl, Hin, Hs, Hnet. simpl. rewrite Hsusp, Hsend, Hm, Hi, Hn.
  rewrite <- app_assoc. repeat split; reflexivity.
Qed.

Lemma exchange_completes_witness :
  exists reply,
    Chat.role reply = Chat.assistant
    /\ Chat.messages
         (Chat.run None (Chat.mount None)
            [Chat.Send (Some Scenario.hello) Scenario.t0;
             Chat.Settle Scenario.server_error Scenario.t1 Scenario.t1])
       = Chat.messages (Chat.mount None) ++ [userMessage Scenario.hello Scenario.t0; reply].
Proof.
  destruct (exchange_completes None (Some Scenario.hello) Scenario.t0 Scenario.t1
              Scenario.t1 Scenario.server_error (Chat.mount None))
    as (reply & Hrole & Hm & _).
  - exists []. reflexivity.
  - reflexivity.
  - vm_compute. discriminate.
  - exists reply. split; [exact Hrole | exact Hm].
Defined.

Lemma sendMessage_continue_unanswered (k : Chat.Suspended) (o : FetchOutcome)
    (c c' : Clock) (q : Chat.Page) :
  unanswered o = true ->
  state_of (Chat.sendMessage_continue k o c c' q)
  = Chat.setIsLoading false
      (Chat.setMessages (fun prev => prev ++ [Chat.fallbackMessage c']) q).
Proof.
  destruct o as [|[st [data|]]]; simpl; intros H; try reflexivity.
  destruct data; try discriminate; reflexivity.
Qed.

Lemma sendMessage_continue_answered (k : Chat.Suspended) (r : Response)
    (data : jsval) (c c' : Clock) (q : Chat.Page) :
  json r = Some data -> data <> VNull -> data <> VUndefined ->
  state_of (Chat.sendMessage_continue k (Resolved r) c c' q)
  = Chat.setIsLoading false
      ((if truthy (field data "session_id") && negb (truthy (Chat.closure_sessionId k))
        then Chat.setSessionId (field data "session_id")
        else fun q' => q')
         (Chat.setMessages
            (fun prev =>
               prev ++ [{| Chat.id := Number_toString (now c + 1);
                           Chat.role := Chat.assistant;
                           Chat.content := field data "message";
                           Chat.timestamp := date c;
                           Chat.sources := or_else (field data "sources") (VArr []) |}])
            q)).
Proof.
  intros Hj Hn Hu. unfold Chat.sendMessage_continue. eff_unfold.
  destruct r as [st body]. simpl in Hj. subst body. unfold field.
  destruct data; try congruence; cbn -[lit or_else truthy];
    match goal with
    | |- context [if ?b then _ else _] => destruct b
    end; reflexivity.
Qed.

(** X2.  When the request is not answered with a body to read -- [fetch]
    rejected, the body is not JSON, or it is [null] -- the exchange ends
    with the fixed apology, whatever the status was, and the session id
    is what it was. *)
Theorem unanswered_exchange_ends_in_apology
    (sessionIdFromUrl : option jsstring) (messageText : option jsstring)
    (c c1 c2 : Clock) (o : FetchOutcome) (p : Chat.Page) :
  reachable sessionIdFromUrl p ->
  Chat.isLoading p = false ->
  trim (Chat.textToSend messageText p) <> [] ->
  unanswered o = true ->
  Chat.messages
    (Chat.run sessionIdFromUrl p [Chat.Send messageText c; Chat.Settle o c1 c2])
  = Chat.messages p
    ++ [userMessage (Chat.textToSend messageText p) c; Chat.fallbackMessage c2]
  /\ Chat.sessionId
       (Chat.run sessionIdFromUrl p [Chat.Send messageText c; Chat.Settle o c1 c2])
     = Chat.sessionId p.
Proof.
  intros Hr Hidle Htext Ho. pose proof (reachable_Inv _ _ Hr) as Hp.
  destruct (step_Send_accepted sessionIdFromUrl messageText c p Hp Hidle Htext)
    as [Hsend Hsusp].
  destruct (sendMessage_past_guard messageText c p Htext Hidle)
    as (Hm & _ & _ & Hsid & _).
  unfold Chat.run. simpl fold_left.
  rewrite (step_Settle_one sessionIdFromUrl _ o c1 c2 _ (Inv_step _ _ _ Hp) Hsusp).
  rewrite sendMessage_continue_unanswered by exact Ho.
  simpl. rewrite Hsend, Hm, Hsid, <- app_assoc. split; reflexivity.
Qed.

Lemma unanswered_exchange_ends_in_apology_witness :
  Chat.messages
    (Chat.run None (Chat.mount None)
       [Chat.Send (Some Scenario.hello) Scenario.t0;
        Chat.Settle (Resolved Scenario.sessions_down) Scenario.t1 Scenario.t2])
  = Chat.messages (Chat.mount None)
    ++ [userMessage Scenario.hello Scenario.t0; Chat.fallbackMessage Scenario.t2].
Proof.
  apply (unanswered_exchange_ends_in_apology None (Some Scenario.hello)
           Scenario.t0 Scenario.t1 Scenario.t2 (Resolved Scenario.sessions_down)
           (Chat.mount None)).
  - exists []. reflexivity.
  - reflexivity.
  - vm_compute. discriminate.
  - reflexivity.
Defined.

(** An exchange answered with a body to read, in full. *)
Lemma answered_exchange
    (sessionIdFromUrl : option jsstring) (messageText : option jsstring)
    (c c1 c2 : Clock) (r : Response) (data : jsval) (p : Chat.Page) :
  reachable sessionIdFromUrl p ->
  Chat.isLoading p = false ->
  trim (Chat.textToSend messageText p) <> [] ->
  json r = Some data -> data <> VNull -> data <> VUndefined ->
  Chat.messages
    (Chat.run sessionIdFromUrl p
       [Chat.Send messageText c; Chat.Settle (Resolved r) c1 c2])
  = Chat.messages p
    ++ [userMessage (Chat.textToSend messageText p) c;
        {| Chat.id := Number_toString (now c1 + 1);
           Chat.role := Chat.assistant;
           Chat.content := field data "message";
           Chat.timestamp := date c1;
           Chat.sources := or_else (field data "sources") (VArr []) |}]
  /\ Chat.sessionId
       (Chat.run sessionIdFromUrl p
          [Chat.Send messageText c; Chat.Settle (Resolved r) c1 c2])
     = (if truthy (Chat.sessionId p) then Chat.sessionId p
        else if truthy (field data "session_id") then field data "session_id"
        else Chat.sessionId p).
Proof.
  intros Hr Hidle Htext Hj Hn Hu. pose proof (reachable_Inv _ _ Hr) as Hp.
  destruct (step_Send_accepted sessionIdFromUrl messageText c p Hp Hidle Htext)
    as [Hsend Hsusp].
  destruct (sendMessage_past_guard messageText c p Htext Hidle)
    as (Hm & _ & _ & Hsid & _).
  unfold Chat.run. simpl fold_left.
  rewrite (step_Settle_one sessionIdFromUrl _ (Resolved r) c1 c2 _
             (Inv_step _ _ _ Hp) Hsusp).
  rewrite (sendMessage_continue_answered _ r data c1 c2 _ Hj Hn Hu).
  cbn [Chat.closure_sessionId].
  destruct (truthy (Chat.sessionId p)) eqn:Hheld;
    destruct (truthy (field data "session_id")) eqn:Hnew;
    cbn -[field or_else Number_toString];
    rewrite Hsend, Hm, ?Hsid, <- app_assoc; split; reflexivity.
Qed.

(** X3.  When the request is answered with a JSON body other than [null],
    whatever the status, the reply shows [data.message] with the sources
    [data.sources || []], and the session id of the body is adopted
    exactly when it is truthy and none was held. *)
Theorem answered_exchange_shows_body
    (sessionIdFromUrl : option jsstring) (messageText : option jsstring)
    (c c1 c2 : Clock) (r : Response) (data : jsval) (p : Chat.Page) :
  reachable sessionIdFromUrl p ->
  Chat.isLoading p = false ->
  trim (Chat.textToSend messageText p) <> [] ->
  json r = Some data -> data <> VNull -> data <> VUndefined ->
  Chat.messages
    (Chat.run sessionIdFromUrl p
       [Chat.Send messageText c; Chat.Settle (Resolved r) c1 c2])
  = Chat.messages p
    ++ [userMessage (Chat.textToSend messageText p) c;
        {| Chat.id := Number_toString (now c1 + 1);
           Chat.role := Chat.assistant;
           Chat.content := field data "message";
           Chat.timestamp := date c1;
           Chat.sources := or_else (field data "sources") (VArr []) |}]
  /\ Chat.sessionId
       (Chat.run sessionIdFromUrl p
          [Chat.Send messageText c; Chat.Settle (Resolved r) c1 c2])
     = (if truthy (Chat.sessionId p) then Chat.sessionId p
        else if truthy (field data "session_id") then field data "session_id"
        else Chat.sessionId p).
Proof.
  apply answered_exchange.
Qed.

Lemma answered_exchange_shows_body_witness :
  Chat.sessionId
    (Chat.run None (Chat.mount None)
       [Chat.Send (Some Scenario.hello) Scenario.t0;
        Chat.Settle (Scenario.responded 200 (Scenario.reply "hi there" "abc"))
          Scenario.t1 Scenario.t1])
  = (if truthy (Chat.sessionId (Chat.mount None)) then Chat.sessionId (Chat.mount None)
     else if truthy (field (Scenario.reply "hi there" "abc") "session_id")
          then field (Scenario.reply "hi there" "abc") "session_id"
          else Chat.sessionId (Chat.mount None)).
Proof.
  apply (answered_exchange_shows_body None (Some Scenario.hello)
           Scenario.t0 Scenario.t1 Scenario.t1
           {| status := 200; json := Some (Scenario.reply "hi there" "abc") |}
           (Scenario.reply "hi there" "abc") (Chat.mount None)).
  - exists []. reflexivity.
  - reflexivity.
  - vm_compute. discriminate.
  - reflexivity.
  - discriminate.
  - discriminate.
Defined.

(** ** The chat page over whole traces *)

Lemma handle_messages_grow (p : Chat.Page) (ev : Chat.Event) :
  Chat.is_send_event ev = true ->
  exists more, Chat.messages (Chat.handle p ev) = Chat.messages p ++ more.
Proof.
  destruct ev as [value|messageText c|o c c'|]; simpl; try discriminate; intros _.
  - exists []. now rewrite app_nil_r.
  - unfold Chat.sendMessage.
    destruct (is_empty (trim (Chat.textToSend messageText p)) || Chat.isLoading p).
    + exists []. now rewrite app_nil_r.
    + eexists. reflexivity.
  - destruct (Chat.suspended p) as [|k rest].
    + exists []. now rewrite app_nil_r.
    + destruct (sendMessage_continue_frame k o c c' (Chat.resume p))
        as (_ & _ & _ & _ & _ & (m & Hm & _) & _).
      exists [m]. exact Hm.
Qed.

(** X4.  Messages are only ever appended: over any events of [sendMessage]
    calls, from any page, the messages shown before are still there, in
    place and unchanged, at the head of the list. *)
Theorem messages_only_grow
    (sessionIdFromUrl : option jsstring) (evs : list Chat.Event) (p : Chat.Page) :
  forallb Chat.is_send_event evs = true ->
  exists more,
    Chat.messages (Chat.run sessionIdFromUrl p evs) = Chat.messages p ++ more.
Proof.
  revert p. induction evs as [|ev evs IH]; intros p Hevs; simpl.
  - exists []. now rewrite app_nil_r.
  - simpl in Hevs. apply andb_true_iff in Hevs. destruct Hevs as [Hev Hevs].
    destruct (IH (Chat.step sessionIdFromUrl p ev) Hevs) as [more Hmore].
    destruct (handle_messages_grow p ev Hev) as [more0 Hmore0].
    destruct (session_effect_frame sessionIdFromUrl (Chat.handle p ev)) as (Hm & _).
    exists (more0 ++ more). unfold Chat.run in *. rewrite Hmore.
    unfold Chat.step. now rewrite Hm, Hmore0, app_assoc.
Qed.

Lemma messages_only_grow_witness :
  exists more,
    Chat.messages
      (Chat.run None (Chat.run None (Chat.mount None) Scenario.first_exchange)
         Scenario.second_exchange)
    = Chat.messages (Chat.run None (Chat.mount None) Scenario.first_exchange) ++ more.
Proof.
  apply (messages_only_grow None Scenario.second_exchange
           (Chat.run None (Chat.mount None) Scenario.first_exchange)).
  reflexivity.
Defined.

(** X5.  Whatever the user does (typing, sending, New Chat) and however the
    network answers, at most one request of the chat page is outstanding,
    and the loading flag is up exactly while one is. *)
Theorem at_most_one_request_in_flight
    (sessionIdFromUrl : option jsstring) (evs : list Chat.Event) :
  (List.length
     (Chat.suspended (Chat.run sessionIdFromUrl (Chat.mount sessionIdFromUrl) evs))
   <= 1)%nat
  /\ Chat.isLoading (Chat.run sessionIdFromUrl (Chat.mount sessionIdFromUrl) evs)
     = match Chat.suspended
               (Chat.run sessionIdFromUrl (Chat.mount sessionIdFromUrl) evs) with
       | [] => false
       | _ :: _ => true
       end.
Proof.
  pose proof (Inv_run sessionIdFromUrl evs _ (Inv_mount sessionIdFromUrl)) as Hp.
  split; [apply (inv_one _ _ Hp)|].
  destruct (Chat.suspended _) eqn:E.
  - destruct (Chat.isLoading _) eqn:L; [|reflexivity].
    now destruct (inv_idle _ _ Hp L).
  - apply (inv_flag _ _ Hp). rewrite E. discriminate.
Qed.

Lemma turns_answer (n : nat) :
  turns n true ++ [Chat.assistant] = turns (S n) false.
Proof.
  unfold turns. rewrite app_nil_r, <- app_assoc. simpl app at 2.
  induction n as [|n IH]; simpl; [reflexivity|]. now rewrite IH.
Qed.

Lemma turns_ask (n : nat) : turns n false ++ [Chat.user] = turns n true.
Proof. unfold turns. now rewrite app_nil_r. Qed.

(** X6.  A conversation alternates: over any events of [sendMessage] calls
    from the mounted page, the messages are user, assistant, user,
    assistant, ..., with one last user message exactly while a request is
    outstanding, and one request has been sent per user message. *)
Theorem conversation_alternates
    (sessionIdFromUrl : option jsstring) (evs : list Chat.Event) :
  forallb Chat.is_send_event evs = true ->
  exists n,
    map Chat.role
      (Chat.messages (Chat.run sessionIdFromUrl (Chat.mount sessionIdFromUrl) evs))
    = turns n (Chat.isLoading
                 (Chat.run sessionIdFromUrl (Chat.mount sessionIdFromUrl) evs))
    /\ List.length
         (Chat.network (Chat.run sessionIdFromUrl (Chat.mount sessionIdFromUrl) evs))
       = (n + if Chat.isLoading
                   (Chat.run sessionIdFromUrl (Chat.mount sessionIdFromUrl) evs)
              then 1 else 0)%nat.
Proof.
  assert (Hstart : exists n,
            map Chat.role (Chat.messages (Chat.mount sessionIdFromUrl))
            = turns n (Chat.isLoading (Chat.mount sessionIdFromUrl))
            /\ List.length (Chat.network (Chat.mount sessionIdFromUrl))
               = (n + if Chat.isLoading (Chat.mount sessionIdFromUrl) then 1 else 0)%nat).
  { destruct (session_effect_frame sessionIdFromUrl Chat.initial)
      as (Hm & _ & Hl & _ & Hn).
    exists 0%nat. unfold Chat.mount. rewrite Hm, Hl, Hn. split; reflexivity. }
  pose proof (Inv_mount sessionIdFromUrl) as Hp.
  generalize dependent (Chat.mount sessionIdFromUrl).
  induction evs as [|ev evs IH]; intros p Hstart Hp Hevs; simpl; [exact Hstart|].
  simpl in Hevs. apply andb_true_iff in Hevs. destruct Hevs as [Hev Hevs].
  apply IH; [|now apply Inv_step|exact Hevs].
  rewrite (step_is_handle sessionIdFromUrl p ev Hp Hev).
  destruct Hstart as (n & Hroles & Hsent).
  destruct ev as [value|messageText c|o c c'|]; simpl in *; try discriminate.
  - exists n. auto.
  - unfold Chat.sendMessage.
    destruct (is_empty (trim (Chat.textToSend messageText p))) eqn:Hb; simpl;
      [exists n; auto|].
    destruct (Chat.isLoading p) eqn:Hl; simpl; [exists n; rewrite Hl; auto|].
    exists n. rewrite map_app, Hroles, length_app, Hsent. simpl.
    split; [apply turns_ask|lia].
  - destruct (Chat.suspended p) as [|k rest] eqn:Hs; [exists n; auto|].
    assert (Hl : Chat.isLoading p = true)
      by (apply (inv_flag _ _ Hp); rewrite Hs; discriminate).
    destruct (sendMessage_continue_frame k o c c' (Chat.resume p))
      as (_ & Hl' & _ & _ & Hn & (m & Hm & Hrole) & _).
    exists (S n). rewrite Hm, Hl', Hn, map_app. simpl.
    rewrite Hroles, Hl, Hrole, Hsent, Hl. split; [apply turns_answer|lia].
Qed.

Lemma conversation_alternates_witness :
  exists n,
    map Chat.role
      (Chat.messages
         (Chat.run None (Chat.mount None)
            (Scenario.first_exchange ++ [Chat.Send (Some Scenario.hello) Scenario.t2])))
    = turns n (Chat.isLoading
                 (Chat.run None (Chat.mount None)
                    (Scenario.first_exchange ++ [Chat.Send (Some Scenario.hello) Scenario.t2]))).
Proof.
  destruct (conversation_alternates None
              (Scenario.first_exchange ++ [Chat.Send (Some Scenario.hello) Scenario.t2]))
    as (n & Hroles & _).
  - reflexivity.
  - exists n. exact Hroles.
Defined.

Lemma session_id_sent_send_request (text : jsstring) (sid : jsval) :
  session_id_sent (Chat.send_request text sid) = Some sid.
Proof. reflexivity. Qed.

(** What one event of a [sendMessage] call adds to the requests sent:
    nothing, or one request carrying the session id held before it. *)
Lemma handle_network (p : Chat.Page) (ev : Chat.Event) :
  Chat.is_send_event ev = true ->
  exists new,
    Chat.network (Chat.handle p ev) = Chat.network p ++ new
    /\ Forall (fun r => session_id_sent r = Some (Chat.sessionId p)) new.
Proof.
  destruct ev as [value|messageText c|o c c'|]; simpl; try discriminate; intros _.
  - exists []. now rewrite app_nil_r.
  - unfold Chat.sendMessage.
    destruct (is_empty (trim (Chat.textToSend messageText p)) || Chat.isLoading p).
    + exists []. now rewrite app_nil_r.
    + eexists. split; [reflexivity|].
      constructor; [apply session_id_sent_send_request|constructor].
  - destruct (Chat.suspended p) as [|k rest].
    + exists []. now rewrite app_nil_r.
    + destruct (sendMessage_continue_frame k o c c' (Chat.resume p))
        as (_ & _ & _ & _ & Hn & _).
      exists []. now rewrite Hn, app_nil_r.
Qed.

(** X7.  The conversation stays in its session: once a session id is held,
    every request sent from then on, over any events of [sendMessage]
    calls, carries that id as its [session_id]. *)
Theorem later_requests_carry_session_id
    (sessionIdFromUrl : option jsstring) (later : list Chat.Event) (p : Chat.Page) :
  reachable sessionIdFromUrl p ->
  forallb Chat.is_send_event later = true ->
  truthy (Chat.sessionId p) = true ->
  exists new,
    Chat.network (Chat.run sessionIdFromUrl p later) = Chat.network p ++ new
    /\ Forall (fun r => session_id_sent r = Some (Chat.sessionId p)) new.
Proof.
  intros Hr. apply reachable_Inv in Hr. revert p Hr.
  induction later as [|ev later IH]; intros p Hp Hevs Ht; simpl.
  - exists []. now rewrite app_nil_r.
  - simpl in Hevs. apply andb_true_iff in Hevs. destruct Hevs as [Hev Hevs].
    pose proof (step_keeps_sessionId sessionIdFromUrl p ev Hp Hev Ht) as Hsid.
    destruct (IH (Chat.step sessionIdFromUrl p ev) (Inv_step _ _ _ Hp) Hevs)
      as (new & Hnew & Hall); [now rewrite Hsid|].
    destruct (handle_network p ev Hev) as (new0 & Hnew0 & Hall0).
    exists (new0 ++ new). unfold Chat.run in *. rewrite Hnew.
    rewrite (step_is_handle sessionIdFromUrl p ev Hp Hev) in *.
    rewrite Hnew0, app_assoc. split; [reflexivity|].
    apply Forall_app. split; [exact Hall0|].
    now rewrite Hsid in Hall.
Qed.

Lemma later_requests_carry_session_id_witness :
  exists new,
    Chat.network
      (Chat.run None (Chat.run None (Chat.mount None) Scenario.first_exchange)
         Scenario.second_exchange)
    = Chat.network (Chat.run None (Chat.mount None) Scenario.first_exchange) ++ new
    /\ Forall (fun r => session_id_sent r
                        = Some (Chat.sessionId
                                  (Chat.run None (Chat.mount None) Scenario.first_exchange)))
         new.
Proof.
  apply (later_requests_carry_session_id None Scenario.second_exchange
           (Chat.run None (Chat.mount None) Scenario.first_exchange)).
  - exists Scenario.first_exchange. reflexivity.
  - reflexivity.
  - reflexivity.
Defined.

(** X8.  New Chat does not call off a request that is under way: the
    welcome screen shows, but a click on one of its suggestions does
    nothing; and when the answer comes, the reply is appended to the
    emptied conversation, which then consists of that one assistant
    message, and the flag goes down. *)
Theorem stale_reply_lands_in_new_chat
    (sessionIdFromUrl : option jsstring) (o : FetchOutcome) (c c' : Clock)
    (p : Chat.Page) :
  reachable sessionIdFromUrl p ->
  Chat.isLoading p = true ->
  ChatView.showsWelcome (Chat.step sessionIdFromUrl p Chat.NewChat) = true
  /\ (forall suggestion c0,
        ChatView.onSuggestionClick suggestion c0
          (Chat.step sessionIdFromUrl p Chat.NewChat)
        = Chat.step sessionIdFromUrl p Chat.NewChat)
  /\ exists reply,
       Chat.role reply = Chat.assistant
       /\ Chat.messages
            (Chat.run sessionIdFromUrl p [Chat.NewChat; Chat.Settle o c c'])
          = [reply]
       /\ Chat.isLoading
            (Chat.run sessionIdFromUrl p [Chat.NewChat; Chat.Settle o c c'])
          = false.
Proof.
  intros Hr Hbusy. pose proof (reachable_Inv _ _ Hr) as Hp.
  destruct (Inv_busy_one sessionIdFromUrl p Hp Hbusy) as [k Hk].
  destruct (session_effect_frame sessionIdFromUrl (Chat.handle p Chat.NewChat))
    as (Hm & _ & Hl & Hs & _).
  assert (Hk' : Chat.suspended (Chat.step sessionIdFromUrl p Chat.NewChat) = [k])
    by (unfold Chat.step; rewrite Hs; exact Hk).
  split; [unfold ChatView.showsWelcome, Chat.step; now rewrite Hm|].
  split.
  { intros suggestion c0. apply sendMessage_at_guard. right.
    unfold Chat.step. rewrite Hl. exact Hbusy. }
  unfold Chat.run. simpl fold_left.
  rewrite (step_Settle_one sessionIdFromUrl k o c c' _ (Inv_step _ _ _ Hp) Hk').
  destruct (sendMessage_continue_frame k o c c'
              (Chat.resume (Chat.step sessionIdFromUrl p Chat.NewChat)))
    as (_ & Hl' & _ & _ & _ & (reply & Hreply & Hrole) & _).
  exists reply. split; [exact Hrole|]. split; [|exact Hl'].
  rewrite Hreply. cbn [Chat.resume Chat.messages]. unfold Chat.step. now rewrite Hm.
Qed.

Lemma stale_reply_lands_in_new_chat_witness :
  exists reply,
    Chat.role reply = Chat.assistant
    /\ Chat.messages
         (Chat.run None
            (Chat.run None (Chat.mount None) [Chat.Send (Some Scenario.hello) Scenario.t0])
            [Chat.NewChat;
             Chat.Settle (Scenario.responded 200 (Scenario.reply "hi there" "abc"))
               Scenario.t1 Scenario.t1])
       = [reply].
Proof.
  destruct (stale_reply_lands_in_new_chat None
              (Scenario.responded 200 (Scenario.reply "hi there" "abc"))
              Scenario.t1 Scenario.t1
              (Chat.run None (Chat.mount None) [Chat.Send (Some Scenario.hello) Scenario.t0]))
    as (_ & _ & reply & Hrole & Hm & _).
  - exists [Chat.Send (Some Scenario.hello) Scenario.t0]. reflexivity.
  - reflexivity.
  - exists reply. split; [exact Hrole | exact Hm].
Defined.

(** ** The send button and the Enter key *)

(** A call of [sendMessage] that passes the guard changes the page. *)
Lemma sendMessage_accepted_changes (messageText : option jsstring) (c : Clock)
    (p : Chat.Page) :
  is_empty (trim (Chat.textToSend messageText p)) || Chat.isLoading p = false ->
  Chat.sendMessage messageText c p <> p.
Proof.
  intros G Heq. apply (f_equal Chat.isLoading) in Heq.
  unfold Chat.sendMessage in Heq. rewrite G in Heq. simpl in Heq.
  apply orb_false_iff in G. destruct G as [_ G]. congruence.
Qed.

(** X9.  The send button is disabled exactly when pressing it would do
    nothing; and a key press changes the page only if it is Enter without
    Shift while the button is enabled, in which case it does what the
    button does. *)
Theorem send_button_disabled_iff_noop (c : Clock) (p : Chat.Page) :
  (ChatView.sendButton_disabled p = true <-> Chat.sendMessage None c p = p)
  /\ (forall e : ChatView.KeyboardEvent,
        snd (ChatView.handleKeyDown e c p) <> p ->
        ChatView.key e = lit "Enter" /\ ChatView.shiftKey e = false
        /\ ChatView.sendButton_disabled p = false
        /\ ChatView.handleKeyDown e c p = (true, Chat.sendMessage None c p)).
Proof.
  assert (Hiff : ChatView.sendButton_disabled p = true
                 <-> Chat.sendMessage None c p = p).
  { unfold ChatView.sendButton_disabled. split.
    - intros H. apply sendMessage_at_guard. simpl.
      apply orb_true_iff in H. destruct H as [H|H]; [left|right; exact H].
      now apply is_empty_nil.
    - intros H.
      destruct (is_empty (trim (Chat.inputMessage p)) || Chat.isLoading p) eqn:G;
        [reflexivity|].
      now destruct (sendMessage_accepted_changes None c p G). }
  split; [exact Hiff|].
  intros e. unfold ChatView.handleKeyDown.
  destruct (str_eqb (ChatView.key e) (lit "Enter")) eqn:Hk; simpl; [|congruence].
  destruct (ChatView.shiftKey e) eqn:Hs; simpl; [congruence|].
  intros Hchg. split.
  - clear -Hk. revert Hk. generalize (lit "Enter") as b. generalize (ChatView.key e) as a.
    induction a as [|x a IH]; destruct b as [|y b]; simpl; try discriminate; auto.
    intros H. apply andb_true_iff in H. destruct H as [Hx Hab].
    apply N.eqb_eq in Hx. subst. f_equal. now apply IH.
  - split; [reflexivity|]. split; [|reflexivity].
    destruct (ChatView.sendButton_disabled p) eqn:Hd; [|reflexivity].
    destruct Hchg. now apply Hiff.
Qed.

Lemma send_button_disabled_iff_noop_witness :
  ChatView.sendButton_disabled Chat.initial = true
  /\ ChatView.sendButton_disabled
       (Chat.setInputMessage Scenario.hello Chat.initial) = false.
Proof.
  split.
  - apply (proj1 (send_button_disabled_iff_noop Scenario.t0 Chat.initial)).
    reflexivity.
  - apply (proj2 (send_button_disabled_iff_noop Scenario.t0
                    (Chat.setInputMessage Scenario.hello Chat.initial))
             {| ChatView.key := lit "Enter"; ChatView.shiftKey := false |}).
    vm_compute. discriminate.
Defined.


(** ** Blank messages *)







(** ** A page opened on a session *)

(** X11.  A page opened with a session id in its URL never leaves that
    session: whatever the user does -- New Chat included, since the render
    after it takes the URL id up again -- and whatever the backend
    answers, the id held is the URL's, and every request sent carries
    it. *)
Theorem url_session_is_never_left (s : jsstring) (evs : list Chat.Event) :
  s <> [] ->
  Chat.sessionId (Chat.run (Some s) (Chat.mount (Some s)) evs) = VStr s
  /\ Forall (fun r => session_id_sent r = Some (VStr s))
       (Chat.network (Chat.run (Some s) (Chat.mount (Some s)) evs)).
Proof.
  intros Hs.
  assert (Hstart : Chat.sessionId (Chat.mount (Some s)) = VStr s
                   /\ Forall (fun r => session_id_sent r = Some (VStr s))
                        (Chat.network (Chat.mount (Some s)))).
  { unfold Chat.mount, Chat.session_effect.
    apply is_empty_false in Hs. rewrite Hs. split; [reflexivity|constructor]. }
  pose proof (Inv_mount (Some s)) as Hp.
  generalize dependent (Chat.mount (Some s)).
  induction evs as [|ev evs IH]; intros p Hstart Hp; [exact Hstart|].
  change (Chat.run (Some s) p (ev :: evs))
    with (Chat.run (Some s) (Chat.step (Some s) p ev) evs).
  destruct Hstart as [Hsid Hsent].
  apply IH; [|now apply Inv_step].
  assert (Ht : truthy (Chat.sessionId p) = true).
  { rewrite Hsid. simpl. apply is_empty_false in Hs. now rewrite Hs. }
  destruct (Chat.is_send_event ev) eqn:Hev.
  - split.
    + now rewrite (step_keeps_sessionId (Some s) p ev Hp Hev Ht).
    + rewrite (step_is_handle (Some s) p ev Hp Hev).
      destruct (handle_network p ev Hev) as (new & -> & Hnew).
      apply Forall_app. split; [exact Hsent|]. now rewrite Hsid in Hnew.
  - destruct ev; try discriminate.
    destruct (NewChat_then_effect s p Hs) as [Hnew _].
    split; [exact Hnew|].
    destruct (session_effect_frame (Some s) (Chat.handle p Chat.NewChat))
      as (_ & _ & _ & _ & Hn).
    unfold Chat.step. rewrite Hn. exact Hsent.
Qed.

Lemma url_session_is_never_left_witness :
  Chat.sessionId
    (Chat.run (Some (lit "42")) (Chat.mount (Some (lit "42")))
       (Scenario.first_exchange ++ [Chat.NewChat] ++ Scenario.second_exchange))
  = VStr (lit "42").
Proof.
  apply (proj1 (url_session_is_never_left (lit "42")
                  (Scenario.first_exchange ++ [Chat.NewChat] ++ Scenario.second_exchange)
                  ltac:(discriminate))).
Defined.

(** ** Message ids *)

Lemma lit_inj (a b : string) : lit a = lit b -> a = b.
Proof.
  unfold lit. intros H.
  rewrite <- (string_of_list_ascii_of_string a), <- (string_of_list_ascii_of_string b).
  f_equal. revert H.
  generalize (list_ascii_of_string b) as y. generalize (list_ascii_of_string a) as x.
  induction x as [|c x IH]; destruct y as [|d y]; simpl; try discriminate; auto.
  intros [= Hc Hxy]. f_equal; [|now apply IH].
  now rewrite <- (ascii_N_embedding c), <- (ascii_N_embedding d), Hc.
Qed.

Lemma Z_to_int_digits (z : Z) :
  Z.to_int z <> Decimal.Pos Decimal.Nil /\ Z.to_int z <> Decimal.Neg Decimal.Nil.
Proof.
  destruct z as [|q|q]; simpl; split; try discriminate; intros [= H];
    now apply (DecimalPos.Unsigned.to_uint_nonnil q).
Qed.

(** Different numbers print differently. *)
Lemma Number_toString_inj (a b : Z) :
  Number_toString a = Number_toString b -> a = b.
Proof.
  unfold Number_toString. intros H. apply lit_inj in H.
  apply DecimalZ.to_int_inj.
  destruct (Z_to_int_digits a) as [Ha Ha'], (Z_to_int_digits b) as [Hb Hb'].
  pose proof (NilZero.isi _ Ha Ha') as Ia. pose proof (NilZero.isi _ Hb Hb') as Ib.
  rewrite H in Ia. congruence.
Qed.

(** X12.  The two messages of an answered exchange get different ids (React
    keys them by [id]) as long as the clock does not run backwards between
    the call and the answer: the assistant's id is [Date.now() + 1]. *)
Theorem answered_exchange_ids_differ
    (sessionIdFromUrl : option jsstring) (messageText : option jsstring)
    (c c1 c2 : Clock) (r : Response) (data : jsval) (p : Chat.Page) :
  reachable sessionIdFromUrl p ->
  Chat.isLoading p = false ->
  trim (Chat.textToSend messageText p) <> [] ->
  json r = Some data -> data <> VNull -> data <> VUndefined ->
  now c <= now c1 ->
  exists asked reply,
    Chat.messages
      (Chat.run sessionIdFromUrl p
         [Chat.Send messageText c; Chat.Settle (Resolved r) c1 c2])
    = Chat.messages p ++ [asked; reply]
    /\ Chat.id asked <> Chat.id reply.
Proof.
  intros Hr Hidle Htext Hj Hn Hu Hclock.
  destruct (answered_exchange sessionIdFromUrl messageText c c1 c2 r data p
              Hr Hidle Htext Hj Hn Hu) as [Hm _].
  eexists. eexists. split; [exact Hm|].
  simpl. intros Heq. apply Number_toString_inj in Heq. lia.
Qed.

Lemma answered_exchange_ids_differ_witness :
  exists asked reply,
    Chat.messages
      (Chat.run None (Chat.mount None)
         [Chat.Send (Some Scenario.hello) Scenario.t0;
          Chat.Settle (Scenario.responded 200 (Scenario.reply "hi there" "abc"))
            Scenario.t0 Scenario.t0])
    = Chat.messages (Chat.mount None) ++ [asked; reply]
    /\ Chat.id asked <> Chat.id reply.
Proof.
  apply (answered_exchange_ids_differ None (Some Scenario.hello)
           Scenario.t0 Scenario.t0 Scenario.t0
           {| status := 200; json := Some (Scenario.reply "hi there" "abc") |}
           (Scenario.reply "hi there" "abc") (Chat.mount None)).
  - exists []. reflexivity.
  - reflexivity.
  - vm_compute. discriminate.
  - reflexivity.
  - discriminate.
  - discriminate.
  - vm_compute. discriminate.
Defined.

(** The apology takes [Date.now()] as it is: when the request fails
    within the millisecond of the call, the two messages share an id. *)
Example fallback_id_can_repeat :
  map Chat.id
    (Chat.messages
       (Chat.run None (Chat.mount None)
          [Chat.Send (Some Scenario.hello) Scenario.t0;
           Chat.Settle Rejected Scenario.t0 Scenario.t0]))
  = [lit "1700000000000"; lit "1700000000000"].
Proof. reflexivity. Qed.


(** ** The dashboard over whole loads *)

(** Case analysis on everything the loader looks at. *)
Ltac load_cases :=
  repeat (cbn -[lit or_else ok json get];
          match goal with
          | H : ok ?r = _ |- context [ok ?r] => rewrite H
          | H : json ?r = _ |- context [json ?r] => rewrite H
          | H : get ?d ?k = _ |- context [get ?d ?k] => rewrite H
          | |- context [ok ?r] => destruct (ok r) eqn:?
          | |- context [json ?r] => destruct (json r) eqn:?
          | |- context [get ?d ?k] => destruct (get d k) eqn:?
          end).

(** X13.  A load always ends: starting one (at mount, by Retry, after a
    delete) lowers the error flag and raises the loading flag; once its
    requests have settled, in any way at all, the continuation has
    completed normally, the loading flag is down, no further request has
    been sent, and the error flag is set exactly when the load did not go
    through -- a request was rejected, or a 2xx body could not be read. *)
Theorem load_always_settles (p : Dashboard.Page) (o1 o2 o3 : FetchOutcome) :
  Dashboard.loading (Dashboard.fetchDashboardData p) = true
  /\ Dashboard.error (Dashboard.fetchDashboardData p) = None
  /\ Dashboard.loading
       (Dashboard.step (Dashboard.fetchDashboardData p) (Dashboard.LoadSettled o1 o2 o3))
     = false
  /\ Dashboard.error
       (Dashboard.step (Dashboard.fetchDashboardData p) (Dashboard.LoadSettled o1 o2 o3))
     = (if load_succeeds o1 o2 o3 then None else Some Dashboard.load_failed)
  /\ fulfilled
       (Dashboard.fetchDashboardData_continue o1 o2 o3
          (Dashboard.resume Dashboard.AwaitDashboard (Dashboard.fetchDashboardData p)))
     = true
  /\ Dashboard.network
       (Dashboard.step (Dashboard.fetchDashboardData p) (Dashboard.LoadSettled o1 o2 o3))
     = Dashboard.network (Dashboard.fetchDashboardData p).
Proof.
  split; [reflexivity|]. split; [reflexivity|]. rewrite step_LoadSettled.
  unfold load_succeeds, passes, readable_stats, readable_list.
  unfold Dashboard.fetchDashboardData_continue. eff_unfold.
  destruct o1 as [|r1], o2 as [|r2], o3 as [|r3];
    try (repeat split; reflexivity).
  load_cases; cbn -[lit or_else ok json get]; repeat split; reflexivity.
Qed.

(** X14.  A 2xx response whose body the loader cannot read stops the load
    where it stands: with an unreadable stats body no slice is set; with
    an unreadable sessions body the stats are set from their response, and
    neither the sessions nor the insights are, whatever the insights
    response was.  Either way the error is raised. *)
Theorem unreadable_body_stops_the_load (p : Dashboard.Page) (r1 r2 r3 : Response) :
  (ok r1 = true -> readable_stats r1 = false ->
   Dashboard.stats
     (Dashboard.step (Dashboard.fetchDashboardData p)
        (Dashboard.LoadSettled (Resolved r1) (Resolved r2) (Resolved r3)))
   = Dashboard.stats p
   /\ Dashboard.recentSessions
        (Dashboard.step (Dashboard.fetchDashboardData p)
           (Dashboard.LoadSettled (Resolved r1) (Resolved r2) (Resolved r3)))
      = Dashboard.recentSessions p
   /\ Dashboard.insights
        (Dashboard.step (Dashboard.fetchDashboardData p)
           (Dashboard.LoadSettled (Resolved r1) (Resolved r2) (Resolved r3)))
      = Dashboard.insights p
   /\ Dashboard.error
        (Dashboard.step (Dashboard.fetchDashboardData p)
           (Dashboard.LoadSettled (Resolved r1) (Resolved r2) (Resolved r3)))
      = Some Dashboard.load_failed)
  /\ (passes readable_stats r1 = true ->
      ok r2 = true -> readable_list (lit "sessions") r2 = false ->
      Dashboard.stats
        (Dashboard.step (Dashboard.fetchDashboardData p)
           (Dashboard.LoadSettled (Resolved r1) (Resolved r2) (Resolved r3)))
      = (if ok r1 then field_or (json r1) (Dashboard.stats p) else Dashboard.stats p)
      /\ Dashboard.recentSessions
           (Dashboard.step (Dashboard.fetchDashboardData p)
              (Dashboard.LoadSettled (Resolved r1) (Resolved r2) (Resolved r3)))
         = Dashboard.recentSessions p
      /\ Dashboard.insights
           (Dashboard.step (Dashboard.fetchDashboardData p)
              (Dashboard.LoadSettled (Resolved r1) (Resolved r2) (Resolved r3)))
         = Dashboard.insights p
      /\ Dashboard.error
           (Dashboard.step (Dashboard.fetchDashboardData p)
              (Dashboard.LoadSettled (Resolved r1) (Resolved r2) (Resolved r3)))
         = Some Dashboard.load_failed).
Proof.
  rewrite step_LoadSettled.
  unfold passes, readable_stats, readable_list, field_or.
  unfold Dashboard.fetchDashboardData_continue. eff_unfold.
  split.
  - intros H1 H2. load_cases; try discriminate;
      cbn -[lit or_else ok json get]; repeat split; reflexivity.
  - intros H1 H2 H3. load_cases; try discriminate;
      cbn -[lit or_else ok json get]; repeat split; reflexivity.
Qed.

Lemma unreadable_body_stops_the_load_witness :
  Dashboard.insights
    (Dashboard.step (Dashboard.fetchDashboardData Scenario.dashboard)
       (Dashboard.LoadSettled (Resolved Scenario.stats_ok)
          (Resolved Scenario.no_content) (Resolved Scenario.insights_ok)))
  = Dashboard.insights Scenario.dashboard
  /\ Dashboard.stats
       (Dashboard.step (Dashboard.fetchDashboardData Scenario.dashboard)
          (Dashboard.LoadSettled (Resolved Scenario.no_content)
             (Resolved Scenario.sessions_down) (Resolved Scenario.insights_ok)))
     = Dashboard.stats Scenario.dashboard.
Proof.
  split.
  - apply (proj2 (unreadable_body_stops_the_load Scenario.dashboard
                    Scenario.stats_ok Scenario.no_content Scenario.insights_ok));
      reflexivity.
  - apply (proj1 (unreadable_body_stops_the_load Scenario.dashboard
                    Scenario.no_content Scenario.sessions_down Scenario.insights_ok));
      reflexivity.
Defined.

(** ** Deleting sessions *)

Lemma Suspended_eqb_eq (a b : Dashboard.Suspended) :
  Dashboard.Suspended_eqb a b = true -> a = b.
Proof.
  destruct a, b; simpl; try discriminate; auto.
  intros H. apply Z.eqb_eq in H. now subst.
Qed.

(** Taking one continuation off the queue leaves the others there. *)
Lemma existsb_remove_first (k k' : Dashboard.Suspended) (l : list Dashboard.Suspended) :
  Dashboard.Suspended_eqb k k' = false ->
  existsb (Dashboard.Suspended_eqb k) (Dashboard.remove_first k' l)
  = existsb (Dashboard.Suspended_eqb k) l.
Proof.
  intros Hne. induction l as [|x l IH]; simpl; [reflexivity|].
  destruct (Dashboard.Suspended_eqb k' x) eqn:E.
  - apply Suspended_eqb_eq in E. subst x. now rewrite Hne.
  - simpl. now rewrite IH.
Qed.

Lemma session_list_filter (f : jsval -> bool) (l : list jsval) :
  session_list l -> session_list (filter f l).
Proof.
  unfold session_list. rewrite !Forall_forall. intros H s Hs.
  apply filter_In in Hs. now apply H.
Qed.

Lemma filter_keeps_all (f : jsval -> bool) (l : list jsval) :
  Forall (fun s => f s = false) l -> filter (fun s => negb (f s)) l = l.
Proof.
  induction 1 as [|s l Hs _ IH]; simpl; [reflexivity|].
  rewrite Hs. simpl. now rewrite IH.
Qed.

(** The page after a DELETE was answered 2xx: the list without the
    session, and a refresh started. *)
Lemma step_DeleteSettled_ok (sessionId : Z) (r : Response) (l : list jsval)
    (q : Dashboard.Page) :
  Dashboard.recentSessions q = VArr l -> session_list l -> ok r = true ->
  existsb (Dashboard.Suspended_eqb (Dashboard.AwaitDelete sessionId))
    (Dashboard.suspended q) = true ->
  Dashboard.step q (Dashboard.DeleteSettled sessionId (Resolved r))
  = Dashboard.fetchDashboardData
      (Dashboard.setRecentSessions
         (VArr (filter (fun s => negb (has_id sessionId s)) l))
         (Dashboard.resume (Dashboard.AwaitDelete sessionId) q)).
Proof.
  intros Hl Hwf Hok Hin. unfold Dashboard.step. rewrite Hin.
  unfold Dashboard.deleteSession_continue. eff_unfold.
  cbn -[lit ok Number_toString]. rewrite Hok.
  unfold Dashboard.updateRecentSessions.
  cbn -[lit ok Number_toString Dashboard.without_session].
  rewrite Hl. unfold Dashboard.without_session.
  rewrite (Array_filter_sessions sessionId l Hwf). reflexivity.
Qed.

(** X15.  After a delete that the backend accepted, no displayed session
    carries the deleted id, the displayed list is a sublist of the one
    before, and when no displayed session carried the id the list is what
    it was; the refresh is started all the same, which raises the loading
    flag. *)
Theorem deleted_session_is_gone
    (sessionId : Z) (r : Response) (p : Dashboard.Page) (l : list jsval) :
  Dashboard.recentSessions p = VArr l -> session_list l -> ok r = true ->
  exists l',
    Dashboard.recentSessions
      (Dashboard.run p [Dashboard.Delete true sessionId;
                        Dashboard.DeleteSettled sessionId (Resolved r)])
    = VArr l'
    /\ Forall (fun s => has_id sessionId s = false) l'
    /\ incl l' l
    /\ (List.length l' <= List.length l)%nat
    /\ (Forall (fun s => has_id sessionId s = false) l -> l' = l)
    /\ Dashboard.loading
         (Dashboard.run p [Dashboard.Delete true sessionId;
                           Dashboard.DeleteSettled sessionId (Resolved r)])
       = true.
Proof.
  intros Hl Hwf Hok. unfold Dashboard.run. cbn [fold_left].
  change (Dashboard.step p (Dashboard.Delete true sessionId))
    with (Dashboard.deleteSession true sessionId p).
  rewrite (step_DeleteSettled_ok sessionId r l); auto;
    [|apply (awaited_after_suspend (Dashboard.AwaitDelete sessionId))].
  exists (filter (fun s => negb (has_id sessionId s)) l).
  split; [reflexivity|]. split; [|split; [|split; [|split]]].
  - apply Forall_forall. intros s Hs. apply filter_In in Hs.
    destruct Hs as [_ Hs]. now apply negb_true_iff.
  - apply incl_filter.
  - apply filter_length_le.
  - apply filter_keeps_all.
  - reflexivity.
Qed.

Lemma deleted_session_is_gone_witness :
  exists l',
    Dashboard.recentSessions
      (Dashboard.run Scenario.dashboard
         [Dashboard.Delete true 42;
          Dashboard.DeleteSettled 42 (Resolved Scenario.no_content)])
    = VArr l'
    /\ Forall (fun s => has_id 42 s = false) l'.
Proof.
  destruct (deleted_session_is_gone 42 Scenario.no_content Scenario.dashboard
              Scenario.three_sessions)
    as (l' & Hl' & Hgone & _).
  - reflexivity.
  - repeat constructor; vm_compute; discriminate.
  - reflexivity.
  - exists l'. split; [exact Hl' | exact Hgone].
Defined.

(** X16.  The refresh that follows an accepted delete has the last
    word on the list exactly when it gets as far as the sessions slice:
    when its three requests resolve, its stats response does not stop the
    load (it is non-2xx, or 2xx with a JSON body) and its sessions
    response is 2xx with a body to read, the list becomes the backend's,
    [data.sessions || []]; in every other case -- a request rejected, the
    load stopped at an unreadable stats body, the sessions response
    non-2xx or unreadable -- the list stays the local one, without the
    deleted session.  Either way the loading flag ends lowered. *)
Theorem refresh_after_delete
    (sessionId : Z) (r : Response) (o1 o2 o3 : FetchOutcome)
    (p : Dashboard.Page) (l : list jsval) :
  Dashboard.recentSessions p = VArr l -> session_list l -> ok r = true ->
  (sessions_applied o1 o2 o3 = false ->
   Dashboard.recentSessions
     (Dashboard.run p
        [Dashboard.Delete true sessionId;
         Dashboard.DeleteSettled sessionId (Resolved r);
         Dashboard.LoadSettled o1 o2 o3])
   = VArr (filter (fun s => negb (has_id sessionId s)) l))
  /\ (forall r2 d v,
        sessions_applied o1 o2 o3 = true ->
        o2 = Resolved r2 -> json r2 = Some d -> get d (lit "sessions") = Some v ->
        Dashboard.recentSessions
          (Dashboard.run p
             [Dashboard.Delete true sessionId;
              Dashboard.DeleteSettled sessionId (Resolved r);
              Dashboard.LoadSettled o1 o2 o3])
        = or_else v (VArr []))
  /\ Dashboard.loading
       (Dashboard.run p
          [Dashboard.Delete true sessionId;
           Dashboard.DeleteSettled sessionId (Resolved r);
           Dashboard.LoadSettled o1 o2 o3])
     = false.
Proof.
  intros Hl Hwf Hok. unfold Dashboard.run. cbn [fold_left].
  change (Dashboard.step p (Dashboard.Delete true sessionId))
    with (Dashboard.deleteSession true sessionId p).
  rewrite (step_DeleteSettled_ok sessionId r l); auto;
    [|apply (awaited_after_suspend (Dashboard.AwaitDelete sessionId))].
  rewrite step_LoadSettled.
  unfold sessions_applied, passes, readable_stats, readable_list.
  unfold Dashboard.fetchDashboardData_continue. eff_unfold.
  destruct o1 as [|r1], o2 as [|r2], o3 as [|r3];
    try (split; [reflexivity|]; split; [discriminate|reflexivity]).
  split; [|split].
  - load_cases; cbn -[lit or_else ok json get]; intros Hno;
      try discriminate; reflexivity.
  - intros r2' d v Happ [= <-] Hj Hg. rewrite Hj, Hg in *.
    load_cases; cbn -[lit or_else ok json get] in *;
      try discriminate; try congruence; reflexivity.
  - load_cases; cbn -[lit or_else ok json get]; reflexivity.
Qed.

Lemma refresh_after_delete_witness :
  Dashboard.recentSessions
    (Dashboard.run Scenario.dashboard
       [Dashboard.Delete true 42;
        Dashboard.DeleteSettled 42 (Resolved Scenario.no_content);
        Dashboard.LoadSettled (Resolved Scenario.no_content)
          (Resolved Scenario.insights_ok) (Resolved Scenario.insights_ok)])
  = VArr (filter (fun s => negb (has_id 42 s)) Scenario.three_sessions)
  /\ Dashboard.recentSessions
       (Dashboard.run Scenario.dashboard
          [Dashboard.Delete true 42;
           Dashboard.DeleteSettled 42 (Resolved Scenario.no_content);
           Dashboard.LoadSettled (Resolved Scenario.sessions_down)
             (Resolved {| status := 200;
                          json := Some (VObj [(lit "sessions",
                                               VArr [Scenario.session 43 "Perovskite solar cells"])]) |})
             Rejected])
     = VArr (filter (fun s => negb (has_id 42 s)) Scenario.three_sessions)
  /\ Dashboard.recentSessions
       (Dashboard.run Scenario.dashboard
          [Dashboard.Delete true 42;
           Dashboard.DeleteSettled 42 (Resolved Scenario.no_content);
           Dashboard.LoadSettled (Resolved Scenario.sessions_down)
             (Resolved {| status := 200;
                          json := Some (VObj [(lit "sessions",
                                               VArr [Scenario.session 43 "Perovskite solar cells"])]) |})
             (Resolved Scenario.not_found)])
     = or_else (VArr [Scenario.session 43 "Perovskite solar cells"]) (VArr []).
Proof.
  split; [|split].
  - apply (proj1 (refresh_after_delete 42 Scenario.no_content
                    (Resolved Scenario.no_content) (Resolved Scenario.insights_ok)
                    (Resolved Scenario.insights_ok)
                    Scenario.dashboard Scenario.three_sessions
                    eq_refl
                    ltac:(repeat constructor; vm_compute; discriminate)
                    eq_refl)).
    reflexivity.
  - apply (proj1 (refresh_after_delete 42 Scenario.no_content
                    (Resolved Scenario.sessions_down)
                    (Resolved {| status := 200;
                                 json := Some (VObj [(lit "sessions",
                                                      VArr [Scenario.session 43 "Perovskite solar cells"])]) |})
                    Rejected
                    Scenario.dashboard Scenario.three_sessions
                    eq_refl
                    ltac:(repeat constructor; vm_compute; discriminate)
                    eq_refl)).
    reflexivity.
  - apply (proj1 (proj2 (refresh_after_delete 42 Scenario.no_content
                    (Resolved Scenario.sessions_down)
                    (Resolved {| status := 200;
                                 json := Some (VObj [(lit "sessions",
                                                      VArr [Scenario.session 43 "Perovskite solar cells"])]) |})
                    (Resolved Scenario.not_found)
                    Scenario.dashboard Scenario.three_sessions
                    eq_refl
                    ltac:(repeat constructor; vm_compute; discriminate)
                    eq_refl))
             {| status := 200;
                json := Some (VObj [(lit "sessions",
                                     VArr [Scenario.session 43 "Perovskite solar cells"])]) |}
             (VObj [(lit "sessions", VArr [Scenario.session 43 "Perovskite solar cells"])])
             (VArr [Scenario.session 43 "Perovskite solar cells"]));
      reflexivity.
Defined.

Lemma filter_filter_both (f g : jsval -> bool) (l : list jsval) :
  filter g (filter f l) = filter (fun s => f s && g s) l.
Proof.
  induction l as [|s l IH]; simpl; [reflexivity|].
  destruct (f s); simpl; [destruct (g s)|]; now rewrite IH.
Qed.

(** Two DELETE answers, one after the other, on a page where both calls
    are waiting. *)
Lemma two_deletes_settle (a b : Z) (ra rb : Response) (q : Dashboard.Page)
    (l : list jsval) :
  a <> b ->
  Dashboard.recentSessions q = VArr l -> session_list l ->
  ok ra = true -> ok rb = true ->
  existsb (Dashboard.Suspended_eqb (Dashboard.AwaitDelete a)) (Dashboard.suspended q) = true ->
  existsb (Dashboard.Suspended_eqb (Dashboard.AwaitDelete b)) (Dashboard.suspended q) = true ->
  Dashboard.recentSessions
    (Dashboard.step
       (Dashboard.step q (Dashboard.DeleteSettled a (Resolved ra)))
       (Dashboard.DeleteSettled b (Resolved rb)))
  = VArr (filter (fun s => negb (has_id a s) && negb (has_id b s)) l).
Proof.
  intros Hab Hl Hwf Ha Hb Ina Inb.
  rewrite (step_DeleteSettled_ok a ra l q Hl Hwf Ha Ina).
  rewrite (step_DeleteSettled_ok b rb (filter (fun s => negb (has_id a s)) l)).
  - cbn [Dashboard.fetchDashboardData Dashboard.recentSessions Dashboard.setLoading
         Dashboard.setError Dashboard.fetch Dashboard.suspend
         Dashboard.setRecentSessions Dashboard.resume].
    now rewrite filter_filter_both.
  - reflexivity.
  - now apply session_list_filter.
  - exact Hb.
  - change (existsb (Dashboard.Suspended_eqb (Dashboard.AwaitDelete b))
              (Dashboard.remove_first (Dashboard.AwaitDelete a) (Dashboard.suspended q)
               ++ [Dashboard.AwaitDashboard]) = true).
    rewrite existsb_app, existsb_remove_first, Inb; [reflexivity|].
    simpl. apply Z.eqb_neq. congruence.
Qed.

(** X17.  Two deletes under way at once both take effect, in whichever order
    their answers arrive: with both answered 2xx, the displayed list is
    the one before without the two sessions. *)
Theorem concurrent_deletes_commute
    (a b : Z) (ra rb : Response) (p : Dashboard.Page) (l : list jsval) :
  a <> b ->
  Dashboard.recentSessions p = VArr l -> session_list l ->
  ok ra = true -> ok rb = true ->
  Dashboard.recentSessions
    (Dashboard.run p
       [Dashboard.Delete true a; Dashboard.Delete true b;
        Dashboard.DeleteSettled a (Resolved ra);
        Dashboard.DeleteSettled b (Resolved rb)])
  = VArr (filter (fun s => negb (has_id a s) && negb (has_id b s)) l)
  /\ Dashboard.recentSessions
       (Dashboard.run p
          [Dashboard.Delete true a; Dashboard.Delete true b;
           Dashboard.DeleteSettled b (Resolved rb);
           Dashboard.DeleteSettled a (Resolved ra)])
     = VArr (filter (fun s => negb (has_id a s) && negb (has_id b s)) l).
Proof.
  intros Hab Hl Hwf Ha Hb. unfold Dashboard.run. cbn [fold_left].
  change (Dashboard.step (Dashboard.step p (Dashboard.Delete true a))
            (Dashboard.Delete true b))
    with (Dashboard.deleteSession true b (Dashboard.deleteSession true a p)).
  assert (Ina : existsb (Dashboard.Suspended_eqb (Dashboard.AwaitDelete a))
                  (Dashboard.suspended
                     (Dashboard.deleteSession true b (Dashboard.deleteSession true a p)))
                = true).
  { change (existsb (Dashboard.Suspended_eqb (Dashboard.AwaitDelete a))
              ((Dashboard.suspended p ++ [Dashboard.AwaitDelete a])
               ++ [Dashboard.AwaitDelete b]) = true).
    now rewrite existsb_app, awaited_after_suspend. }
  assert (Inb : existsb (Dashboard.Suspended_eqb (Dashboard.AwaitDelete b))
                  (Dashboard.suspended
                     (Dashboard.deleteSession true b (Dashboard.deleteSession true a p)))
                = true)
    by apply (awaited_after_suspend (Dashboard.AwaitDelete b)).
  split.
  - apply two_deletes_settle; auto.
  - rewrite (two_deletes_settle b a rb ra _ l); auto.
    f_equal. apply filter_ext. intros s. apply andb_comm.
Qed.

Lemma concurrent_deletes_commute_witness :
  Dashboard.recentSessions
    (Dashboard.run Scenario.dashboard
       [Dashboard.Delete true 41; Dashboard.Delete true 43;
        Dashboard.DeleteSettled 43 (Resolved Scenario.no_content);
        Dashboard.DeleteSettled 41 (Resolved Scenario.no_content)])
  = VArr (filter (fun s => negb (has_id 41 s) && negb (has_id 43 s))
            Scenario.three_sessions).
Proof.
  apply (proj2 (concurrent_deletes_commute 41 43 Scenario.no_content Scenario.no_content
                  Scenario.dashboard Scenario.three_sessions
                  ltac:(discriminate) eq_refl
                  ltac:(repeat constructor; vm_compute; discriminate)
                  eq_refl eq_refl)).
Defined.

(** ** The axios client of [lib/api.ts] *)

(** X19.  The base URL is never empty: an unset or empty variable gives the
    localhost fallback.  And every request of the client goes to that
    base, with one trailing slash (or two) dropped, followed by the path
    of its endpoint -- so the one variable moves them all. *)
Theorem client_requests_share_the_base
    (env : option jsstring) (message sessionId query : jsstring)
    (session_id filters : jsval) :
  Api.API_BASE_URL env <> []
  /\ (env = None \/ env = Some [] ->
      Api.API_BASE_URL env = lit "http://localhost:8000/api")
  /\ map url
       [Api.chatAPI_sendMessage env message session_id;
        Api.chatAPI_getSessions env;
        Api.chatAPI_getSession env sessionId;
        Api.chatAPI_deleteSession env sessionId;
        Api.researchAPI_search env query filters;
        Api.healthCheck env]
     = map (app (Api.strip_trailing_slash (Api.API_BASE_URL env)))
         [lit "/chat/send/";
          lit "/chat/sessions/";
          lit "/chat/sessions/" ++ sessionId ++ lit "/";
          lit "/chat/sessions/" ++ sessionId ++ lit "/";
          lit "/research/search/";
          lit "/health/"]
  /\ map method
       [Api.chatAPI_sendMessage env message session_id;
        Api.chatAPI_getSessions env;
        Api.chatAPI_getSession env sessionId;
        Api.chatAPI_deleteSession env sessionId;
        Api.researchAPI_search env query filters;
        Api.healthCheck env]
     = [POST; GET; GET; DELETE; POST; GET].
Proof.
  split; [destruct env as [[|c s]|]; discriminate|].
  split; [intros [->| ->]; reflexivity|].
  split; reflexivity.
Qed.

Lemma client_requests_share_the_base_witness :
  Api.API_BASE_URL (Some []) = lit "http://localhost:8000/api".
Proof.
  apply (proj1 (proj2 (client_requests_share_the_base (Some []) Scenario.hello
                         (lit "7") (lit "q") VNull VUndefined))).
  right. reflexivity.
Defined.

(** X20.  [healthCheck] reports every failure the same way: it fulfils with
    the body exactly when the backend answered 2xx, and otherwise -- no
    response, or any other status -- rejects with "Backend is not
    available", whereas the other calls of the client hand on the axios
    error as it is. *)
Theorem healthCheck_reports_unavailable (s : ApiClient.Settled) :
  (forall status data,
     s = ApiClient.Answered status data -> 200 <= status < 300 ->
     ApiClient.healthCheck_settle s = ApiClient.Fulfilled data
     /\ ApiClient.return_data s = ApiClient.Fulfilled data)
  /\ ((s = ApiClient.NoResponse
       \/ exists status data,
            s = ApiClient.Answered status data /\ (status < 200 \/ 300 <= status)) ->
      ApiClient.healthCheck_settle s
      = ApiClient.Error (lit "Backend is not available")
      /\ ApiClient.return_data s = ApiClient.AxiosError).
Proof.
  unfold ApiClient.healthCheck_settle, ApiClient.return_data, ApiClient.validateStatus.
  split.
  - intros status data -> [Hlo Hhi].
    apply Z.leb_le in Hlo. apply Z.ltb_lt in Hhi. now rewrite Hlo, Hhi.
  - intros [->|(status & data & -> & Hout)]; [split; reflexivity|].
    assert (Hno : (200 <=? status) && (status <? 300) = false).
    { apply andb_false_iff. destruct Hout as [H|H];
        [left; apply Z.leb_gt|right; apply Z.ltb_ge]; lia. }
    now rewrite Hno.
Qed.

Lemma healthCheck_reports_unavailable_witness :
  ApiClient.healthCheck_settle (ApiClient.Answered 503 VNull)
  = ApiClient.Error (lit "Backend is not available")
  /\ ApiClient.return_data (ApiClient.Answered 503 VNull) = ApiClient.AxiosError.
Proof.
  apply (proj2 (healthCheck_reports_unavailable (ApiClient.Answered 503 VNull))).
  right. exists 503, VNull. split; [reflexivity|]. right. lia.
Defined.

(** ** [encodeURIComponent] and the sources query *)

Ltac Zify.zify_post_hook ::= Z.to_euclidean_division_equations.

Lemma unreserved_digit (c : N) : (48 <= c <= 57)%N -> URI.unreserved c = true.
Proof.
  intros [H1 H2]. unfold URI.unreserved.
  apply N.leb_le in H1. apply N.leb_le in H2. rewrite H1, H2.
  now rewrite !orb_true_r.
Qed.

Lemma unreserved_upper (c : N) : (65 <= c <= 90)%N -> URI.unreserved c = true.
Proof.
  intros [H1 H2]. unfold URI.unreserved.
  apply N.leb_le in H1. apply N.leb_le in H2. now rewrite H1, H2.
Qed.

Lemma hex_digit_unreserved (n : N) :
  (n < 16)%N -> URI.unreserved (URI.hex_digit n) = true.
Proof.
  intros Hn. unfold URI.hex_digit. destruct (n <? 10)%N eqn:E.
  - apply N.ltb_lt in E. apply unreserved_digit. lia.
  - apply N.ltb_ge in E. apply unreserved_upper. lia.
Qed.

Lemma percent_safe (octet : N) :
  (octet < 256)%N -> Forall (fun c => query_safe c = true) (URI.percent octet).
Proof.
  intros H. unfold URI.percent, query_safe.
  repeat constructor.
  - rewrite hex_digit_unreserved; [reflexivity|lia].
  - rewrite hex_digit_unreserved; [reflexivity|lia].
Qed.

Lemma utf8_octets (cp : N) :
  (cp < 1114112)%N -> Forall (fun b => (b < 256)%N) (URI.utf8 cp).
Proof.
  intros H. unfold URI.utf8.
  destruct (cp <? 128)%N eqn:E1; [apply N.ltb_lt in E1; repeat constructor; lia|].
  destruct (cp <? 2048)%N eqn:E2; [apply N.ltb_lt in E2; repeat constructor; lia|].
  destruct (cp <? 65536)%N eqn:E3; [apply N.ltb_lt in E3; repeat constructor; lia|].
  repeat constructor; lia.
Qed.

Lemma escape_safe (cp : N) :
  (cp < 1114112)%N -> Forall (fun c => query_safe c = true) (URI.escape cp).
Proof.
  intros H. unfold URI.escape. apply Forall_concat, Forall_map.
  eapply Forall_impl; [|apply (utf8_octets cp H)].
  intros b Hb. now apply percent_safe.
Qed.

Lemma surrogate_pair_code_point (c d : N) :
  URI.is_high_surrogate c = true -> URI.is_low_surrogate d = true ->
  (65536 + (c - 55296) * 1024 + (d - 56320) < 1114112)%N.
Proof.
  unfold URI.is_high_surrogate, URI.is_low_surrogate.
  rewrite !andb_true_iff, !N.leb_le. lia.
Qed.

Lemma encodeURIComponent_safe (n : nat) (s e : jsstring) :
  (List.length s <= n)%nat -> code_units s ->
  URI.encodeURIComponent s = Some e ->
  Forall (fun c => query_safe c = true) e.
Proof.
  revert s e. induction n as [|n IH]; intros s e Hlen Hs He.
  - destruct s; [|simpl in Hlen; lia]. injection He as <-. constructor.
  - destruct s as [|c r]; [injection He as <-; constructor|].
    inversion Hs as [|? ? Hc Hr]; subst. simpl in Hlen, He.
    destruct (URI.unreserved c) eqn:Hu.
    + destruct (URI.encodeURIComponent r) as [e'|] eqn:Hr'; [|discriminate].
      injection He as <-. constructor.
      * unfold query_safe. now rewrite Hu.
      * apply (IH r e'); auto. lia.
    + destruct (URI.is_low_surrogate c) eqn:Hlow; [discriminate|].
      destruct (URI.is_high_surrogate c) eqn:Hhigh.
      * destruct r as [|d r']; [discriminate|].
        destruct (URI.is_low_surrogate d) eqn:Hd; [|discriminate].
        destruct (URI.encodeURIComponent r') as [e'|] eqn:Hr'; [|discriminate].
        injection He as <-. apply Forall_app. split.
        -- apply escape_safe. now apply surrogate_pair_code_point.
        -- inversion Hr; subst. apply (IH r' e'); auto. simpl in Hlen. lia.
      * destruct (URI.encodeURIComponent r) as [e'|] eqn:Hr'; [|discriminate].
        injection He as <-. apply Forall_app. split.
        -- apply escape_safe. lia.
        -- apply (IH r e'); auto. lia.
Qed.

(** X21.  Whatever the user searches for, the request [getSources] sends
    goes to the base followed by [/research/sources/?q=] and
    [encodeURIComponent(query)], and that encoding of the query holds only
    unreserved characters and percent escapes: no [&], [=], [#], [?],
    [/], [+] or space of the query can end the parameter or start
    another. *)
Theorem getSources_query_stays_one_parameter
    (env : option jsstring) (query : jsstring) (r : Request) :
  code_units query ->
  ApiClient.researchAPI_getSources env query = Some r ->
  exists q,
    URI.encodeURIComponent query = Some q
    /\ url r = Api.strip_trailing_slash (Api.API_BASE_URL env)
               ++ lit "/research/sources/?q=" ++ q
    /\ Forall (fun c => query_safe c = true) q
    /\ Forall (fun c => ~ In c (lit "&=#?/+ ")) q
    /\ method r = GET.
Proof.
  intros Hq. unfold ApiClient.researchAPI_getSources.
  destruct (URI.encodeURIComponent query) as [q|] eqn:Henc; [|discriminate].
  intros [= <-]. exists q.
  pose proof (encodeURIComponent_safe _ query q (le_n _) Hq Henc) as Hsafe.
  split; [reflexivity|].
  split; [reflexivity|]. split; [exact Hsafe|]. split; [|reflexivity].
  eapply Forall_impl; [|exact Hsafe].
  intros c Hc Hin. simpl in Hin.
  repeat (destruct Hin as [<-|Hin]; [vm_compute in Hc; discriminate|]).
  exact Hin.
Qed.

Lemma getSources_query_stays_one_parameter_witness :
  exists q,
    URI.encodeURIComponent (lit "a&b=1") = Some q
    /\ url {| method := GET;
              url := lit "http://localhost:8000/api/research/sources/?q=a%26b%3D1";
              body := VUndefined |}
       = Api.strip_trailing_slash (Api.API_BASE_URL None)
         ++ lit "/research/sources/?q=" ++ q
    /\ Forall (fun c => query_safe c = true) q.
Proof.
  destruct (getSources_query_stays_one_parameter None (lit "a&b=1")
              {| method := GET;
                 url := lit "http://localhost:8000/api/research/sources/?q=a%26b%3D1";
                 body := VUndefined |})
    as (q & Henc & Hurl & Hsafe & _).
  - repeat constructor.
  - reflexivity.
  - exists q. split; [exact Henc|]. split; [exact Hurl | exact Hsafe].
Defined.

(** X22.  [getSources] sends its request for every query without surrogate
    code units (it throws, and sends nothing, only for a surrogate without
    its partner), and a query of letters, digits and [- _ . ! ~ * ' ( )]
    goes into the URL as it is. *)
Theorem getSources_sends_plain_queries
    (env : option jsstring) (query : jsstring) :
  (Forall (fun c => URI.is_high_surrogate c = false
                    /\ URI.is_low_surrogate c = false) query ->
   exists r, ApiClient.researchAPI_getSources env query = Some r)
  /\ (Forall (fun c => URI.unreserved c = true) query ->
      ApiClient.researchAPI_getSources env query
      = Some (Api.api env GET (lit "/research/sources/?q=" ++ query) VUndefined)).
Proof.
  unfold ApiClient.researchAPI_getSources. split.
  - intros H.
    assert (He : exists e, URI.encodeURIComponent query = Some e).
    { induction H as [|c r [Hh Hl] _ [e IH]]; simpl; [eauto|].
      rewrite Hh, Hl, IH. destruct (URI.unreserved c); simpl; eauto. }
    destruct He as [e ->]. eauto.
  - intros H.
    assert (He : URI.encodeURIComponent query = Some query).
    { induction H as [|c r Hc _ IH]; simpl; [reflexivity|].
      now rewrite Hc, IH. }
    now rewrite He.
Qed.

Lemma getSources_sends_plain_queries_witness :
  ApiClient.researchAPI_getSources None (lit "transformers")
  = Some (Api.api None GET (lit "/research/sources/?q=" ++ lit "transformers") VUndefined).
Proof.
  apply (proj2 (getSources_sends_plain_queries None (lit "transformers"))).
  repeat constructor.
Defined.
